(** * The PostgreSQL credential-reset workflow of [setup/postgres-reset.py]

    A shallow embedding of the script and the properties of its reset
    workflow: backup before mutation, rollback, the secure template, the
    exit code, the locators and the database connections.

    The script talks to four things it does not control: the process
    runner ([subprocess.run]), the file system, the database driver
    ([psycopg2]) and the platform name.  They are collected in a [Host]:
    the answer of the host to the n-th external call is a function of n
    and of the call, so that a command, a file or the database can answer
    differently at different moments of one run.  What the script itself
    changes is a [State]: the text files it wrote, the connections it holds
    open, the number of external calls made so far and the trace of what
    it did.

    Files hold text as Python's text mode hands it over ([str] from
    [read()], [str] to [write()]); encodings and newline translation sit
    below this model.  [print] cannot fail here, and the commands run by
    the host have no effect on the files of the state. *)

From Stdlib Require Import String Ascii List ZArith Lia Bool.
From stdpp Require Import base option gmap strings.
Import ListNotations.
Open Scope string_scope.
Open Scope list_scope.

(** ** Exceptions and results *)

(** The exceptions the modelled calls can raise; all of them are subclasses
    of Python's [Exception]. *)
Inductive Exn : Type :=
  | OSError (msg : string)
  | DatabaseError (msg : string)
  | TypeError (msg : string)
  | IndexError (msg : string).

(** [str(e)] *)
Definition str (e : Exn) : string :=
  match e with
  | OSError msg | DatabaseError msg | TypeError msg | IndexError msg => msg
  end.

Inductive Res (A : Type) : Type :=
  | Val (a : A)
  | Raise (e : Exn).
Arguments Val {A} a.
Arguments Raise {A} e.

(** ** The host and the state *)

Inductive Mode : Type := ModeR | ModeW.

Inductive DbCall : Type :=
  | Connect (host database user : string) (password : option string)
  | SetIsolationLevel
  | Cursor
  | Execute (sql : string)
  | Fetchone
  | CursorClose
  | ConnClose (conn : nat).

Inductive Event : Type :=
  | EvPrint (line : string)
  | EvRun (command : string)
  | EvOpen (path : string) (mode : Mode)
  | EvRead (path : string)
  | EvWrite (path : string) (data : string)
  | EvDb (call : DbCall)
  | EvSleep (seconds : nat).

#[global] Instance Mode_eq_dec : EqDecision Mode.
Proof. solve_decision. Defined.

#[global] Instance DbCall_eq_dec : EqDecision DbCall.
Proof. solve_decision. Defined.

#[global] Instance Event_eq_dec : EqDecision Event.
Proof. solve_decision. Defined.

Record Host : Type := {
  (** [platform.system().lower()] *)
  system : string;
  (** whether [import psycopg2] finds the module *)
  has_psycopg2 : bool;
  (** [subprocess.run]: return code, stdout and stderr, or an exception *)
  spawn : nat -> string -> Res (Z * string * string);
  (** the directories that exist on the host *)
  dirs : string -> bool;
  (** [open(path, mode)] raises [OSError] with this message *)
  open_fault : nat -> string -> Mode -> option string;
  (** [read()] raises with this message *)
  read_fault : nat -> string -> option string;
  (** [write()] or the flush at close raises after that many characters *)
  write_fault : nat -> string -> option (nat * string);
  (** the driver raises with this message *)
  db_fault : nat -> DbCall -> option string;
  (** the row [fetchone()] returns, [None] when there is none *)
  db_row : nat -> option (list string)
}.

Record State : Type := {
  files : gmap string string;
  open_conns : list nat;
  clock : nat;
  log : list Event
}.

Definition init (fs : gmap string string) : State :=
  {| files := fs; open_conns := []; clock := 0; log := [] |}.

Definition set_files (fs : gmap string string) (s : State) : State :=
  {| files := fs; open_conns := open_conns s; clock := clock s; log := log s |}.

Definition set_conns (cs : list nat) (s : State) : State :=
  {| files := files s; open_conns := cs; clock := clock s; log := log s |}.

(** ** The monad of the script: state and exceptions *)

Definition M (A : Type) : Type := State -> Res A * State.

Definition ret {A : Type} (a : A) : M A := fun s => (Val a, s).

Definition raise {A : Type} (e : Exn) : M A := fun s => (Raise e, s).

Definition bind {A B : Type} (m : M A) (k : A -> M B) : M B :=
  fun s =>
    match m s with
    | (Val a, s') => k a s'
    | (Raise e, s') => (Raise e, s')
    end.

(** [try: body except Exception as e: handler] *)
Definition try_except {A : Type} (body : M A) (handler : Exn -> M A) : M A :=
  fun s =>
    match body s with
    | (Val a, s') => (Val a, s')
    | (Raise e, s') => handler e s'
    end.

(** The state a computation ends in. *)
Definition exec {A : Type} (m : M A) (s : State) : State := snd (m s).

Declare Scope script_scope.
Delimit Scope script_scope with script.
Notation "x <- m ;; k" := (bind m (fun x => k))
  (at level 100, m at next level, k at level 200, right associativity)
  : script_scope.
Notation "m ;;; k" := (bind m (fun _ => k))
  (at level 100, k at level 200, right associativity) : script_scope.
Open Scope script_scope.

Definition emit (e : Event) : M unit :=
  fun s =>
    (Val tt,
     {| files := files s; open_conns := open_conns s; clock := clock s;
        log := log s ++ [e] |}).

(** Every external call is numbered and traced. *)
Definition call (e : Event) : M nat :=
  fun s =>
    (Val (clock s),
     {| files := files s; open_conns := open_conns s; clock := S (clock s);
        log := log s ++ [e] |}).

Definition print (line : string) : M unit := emit (EvPrint line).

Definition sleep (seconds : nat) : M unit := emit (EvSleep seconds).

(** The double quote of the command lines. *)
Definition dq : string := String (ascii_of_nat 34) EmptyString.

Section Script.

Variable h : Host.

(** ** Processes (lines 14-20) *)

Definition subprocess_run (command : string) : M (Z * string * string) :=
  t <- call (EvRun command);;
  match spawn h t command with
  | Val r => ret r
  | Raise e => raise e
  end.

Definition run_command (command : string) : M (bool * string * string) :=
  try_except
    (result <- subprocess_run command;;
     let '(returncode, stdout, stderr) := result in
     ret (Z.eqb returncode 0, stdout, stderr))
    (fun e => ret (false, EmptyString, str e)).

(** ** Files *)

(** [os.path.exists] *)
Definition path_exists (s : State) (path : string) : bool :=
  dirs h path || match files s !! path with Some _ => true | None => false end.

Definition os_path_exists (path : string) : M bool :=
  fun s => (Val (path_exists s path), s).

(** [os.path.join] for a directory and a file name, neither ending nor
    starting with a separator; the separator is the host's. *)
Definition os_path_join (dir name : string) : string :=
  dir +:+ (if String.eqb (system h) "windows" then "\" else "/") +:+ name.

(** [open(path, mode)]: reading needs the file, writing truncates it. *)
Definition open_file (path : string) (mode : Mode) : M unit :=
  t <- call (EvOpen path mode);;
  match open_fault h t path mode with
  | Some msg => raise (OSError msg)
  | None =>
      match mode with
      | ModeR =>
          fun s =>
            match files s !! path with
            | Some _ => (Val tt, s)
            | None => (Raise (OSError "No such file or directory"), s)
            end
      | ModeW => fun s => (Val tt, set_files (<[path := EmptyString]> (files s)) s)
      end
  end.

Definition file_read (path : string) : M string :=
  t <- call (EvRead path);;
  match read_fault h t path with
  | Some msg => raise (OSError msg)
  | None =>
      fun s =>
        match files s !! path with
        | Some data => (Val data, s)
        | None => (Raise (OSError "No such file or directory"), s)
        end
  end.

Definition file_write (path data : string) : M unit :=
  t <- call (EvWrite path data);;
  match write_fault h t path with
  | Some (n, msg) =>
      fun s =>
        (Raise (OSError msg),
         set_files (<[path := substring 0 n data]> (files s)) s)
  | None => fun s => (Val tt, set_files (<[path := data]> (files s)) s)
  end.

(** ** The database driver *)

Definition db_call (c : DbCall) : M nat :=
  t <- call (EvDb c);;
  match db_fault h t c with
  | Some msg => raise (DatabaseError msg)
  | None => ret t
  end.

(** [psycopg2.connect(host="localhost", database="postgres",
    user="postgres"[, password=...])]; the handle is the number of the call. *)
Definition connect (password : option string) : M nat :=
  conn <- db_call (Connect "localhost" "postgres" "postgres" password);;
  fun s => (Val conn, set_conns (conn :: open_conns s) s).

Definition conn_close (conn : nat) : M unit :=
  db_call (ConnClose conn);;;
  fun s => (Val tt, set_conns (List.filter (fun c => negb (Nat.eqb c conn)) (open_conns s)) s).

Definition fetchone : M (option (list string)) :=
  t <- db_call Fetchone;;
  ret (db_row h t).

(** ** Locating the service and the data directory (lines 22-38, 86-117) *)

Definition windows_services : list string :=
  ["postgresql-x64-14"; "postgresql-x64-15"; "postgresql-x64-16"; "PostgreSQL"].

(** The loop of lines 29-32; falling out of it reaches [return None]. *)
Fixpoint probe_services (services : list string) : M (option string) :=
  match services with
  | [] => ret None
  | service :: rest =>
      r <- run_command ("sc query " +:+ dq +:+ service +:+ dq);;
      let '(success, _, _) := r in
      if success then ret (Some service) else probe_services rest
  end.

Definition find_postgres_service : M (option string) :=
  if String.eqb (system h) "windows" then probe_services windows_services
  else if String.eqb (system h) "linux" then ret (Some "postgresql")
  else if String.eqb (system h) "darwin" then ret (Some "postgresql")
  else ret None.

Definition common_paths : list string :=
  if String.eqb (system h) "windows" then
    ["C:\Program Files\PostgreSQL\14\data";
     "C:\Program Files\PostgreSQL\15\data";
     "C:\Program Files\PostgreSQL\16\data";
     "C:\PostgreSQL\data"]
  else if String.eqb (system h) "linux" then
    ["/var/lib/postgresql/data";
     "/var/lib/pgsql/data";
     "/usr/local/var/postgres"]
  else if String.eqb (system h) "darwin" then
    ["/usr/local/var/postgres";
     "/opt/homebrew/var/postgres";
     "/Library/PostgreSQL/14/data";
     "/Library/PostgreSQL/15/data"]
  else [].

(** The loop of lines 113-117. *)
Fixpoint probe_paths (paths : list string) : M (option string) :=
  match paths with
  | [] => ret None
  | path :: rest =>
      found <- os_path_exists path;;
      if found then ret (Some path) else probe_paths rest
  end.

Definition find_postgres_data_dir : M (option string) :=
  probe_paths common_paths.

(** ** Stopping and starting the service (lines 40-84) *)

Definition stop_postgres : M bool :=
  service_name <- find_postgres_service;;
  match service_name with
  | None => print "❌ Could not find PostgreSQL service";;; ret false
  | Some service_name =>
      print ("🔄 Stopping PostgreSQL service: " +:+ service_name);;;
      r <- (if String.eqb (system h) "windows"
            then run_command ("net stop " +:+ dq +:+ service_name +:+ dq)
            else run_command ("sudo systemctl stop " +:+ service_name));;
      let '(success, _, error) := r in
      if success then print "✅ PostgreSQL service stopped";;; ret true
      else
        print ("⚠️  Warning: Could not stop PostgreSQL service: " +:+ error);;;
        ret false
  end.

Definition start_postgres : M bool :=
  service_name <- find_postgres_service;;
  match service_name with
  | None => print "❌ Could not find PostgreSQL service";;; ret false
  | Some service_name =>
      print ("🔄 Starting PostgreSQL service: " +:+ service_name);;;
      r <- (if String.eqb (system h) "windows"
            then run_command ("net start " +:+ dq +:+ service_name +:+ dq)
            else run_command ("sudo systemctl start " +:+ service_name));;
      let '(success, _, error) := r in
      if success then print "✅ PostgreSQL service started";;; ret true
      else
        print ("❌ Failed to start PostgreSQL service: " +:+ error);;;
        ret false
  end.

(** ** The authentication-policy file (lines 119-184, 246-276) *)

Definition pg_hba_of (data_dir : string) : string :=
  os_path_join data_dir "pg_hba.conf".

Definition backup_of (pg_hba_path : string) : string :=
  pg_hba_path +:+ ".backup".

Definition trust_config : string :=
"# TYPE  DATABASE        USER            ADDRESS                 METHOD
# Allow local connections with trust (for reset)
local   all             all                                     trust
host    all             all             127.0.0.1/32            trust
host    all             all             ::1/128                 trust
".

Definition secure_config : string :=
"# TYPE  DATABASE        USER            ADDRESS                 METHOD
# Local connections
local   all             postgres                                md5
local   all             all                                     md5

# IPv4 local connections:
host    all             postgres        127.0.0.1/32            md5
host    all             all             127.0.0.1/32            md5

# IPv6 local connections:
host    all             postgres        ::1/128                 md5
host    all             all             ::1/128                 md5
".

(** [with open(src, 'r') as a: with open(dst, 'w') as b: b.write(a.read())] *)
Definition copy_text (src dst : string) : M unit :=
  open_file src ModeR;;;
  open_file dst ModeW;;;
  data <- file_read src;;
  file_write dst data.

(** [with open(path, 'w') as f: f.write(data)] *)
Definition write_text (path data : string) : M unit :=
  open_file path ModeW;;;
  file_write path data.

(** Lines 135-144: [true] when the backup was written, [false] for the
    [return False] of the handler. *)
Definition backup_pg_hba (pg_hba_path : string) : M bool :=
  try_except
    (copy_text pg_hba_path (backup_of pg_hba_path);;;
     print ("✅ Backup created at " +:+ backup_of pg_hba_path);;;
     ret true)
    (fun e => print ("❌ Failed to backup pg_hba.conf: " +:+ str e);;; ret false).

(** Lines 146-161. *)
Definition write_trust (pg_hba_path : string) : M bool :=
  try_except
    (write_text pg_hba_path trust_config;;;
     print "✅ pg_hba.conf updated to allow trust authentication";;;
     ret true)
    (fun e => print ("❌ Failed to update pg_hba.conf: " +:+ str e);;; ret false).

Definition reset_postgres_auth : M bool :=
  data_dir <- find_postgres_data_dir;;
  match data_dir with
  | None => print "❌ Could not find PostgreSQL data directory";;; ret false
  | Some data_dir =>
      let pg_hba_path := pg_hba_of data_dir in
      found <- os_path_exists pg_hba_path;;
      if negb found then
        print ("❌ Could not find pg_hba.conf at " +:+ pg_hba_path);;; ret false
      else
        print ("🔄 Backing up and modifying " +:+ pg_hba_path);;;
        saved <- backup_pg_hba pg_hba_path;;
        if negb saved then ret false else write_trust pg_hba_path
  end.

Definition restore_postgres_auth : M bool :=
  data_dir <- find_postgres_data_dir;;
  match data_dir with
  | None => ret false
  | Some data_dir =>
      let pg_hba_path := pg_hba_of data_dir in
      let backup_path := backup_of pg_hba_path in
      found <- os_path_exists backup_path;;
      if found then
        try_except
          (copy_text backup_path pg_hba_path;;;
           print "✅ Original pg_hba.conf restored";;;
           ret true)
          (fun e => print ("❌ Failed to restore pg_hba.conf: " +:+ str e);;; ret false)
      else ret false
  end.

Definition create_secure_pg_hba : M bool :=
  data_dir <- find_postgres_data_dir;;
  match data_dir with
  | None => ret false
  | Some data_dir =>
      let pg_hba_path := pg_hba_of data_dir in
      try_except
        (write_text pg_hba_path secure_config;;;
         print "✅ pg_hba.conf updated with secure password authentication";;;
         ret true)
        (fun e => print ("❌ Failed to create secure pg_hba.conf: " +:+ str e);;; ret false)
  end.

(** ** The credential change and the verification (lines 186-244) *)

(** Python's [not row] for what [fetchone()] returns. *)
Definition no_row (row : option (list string)) : bool :=
  match row with
  | None | Some [] => true
  | Some (_ :: _) => false
  end.

Definition reset_postgres_password : M bool :=
  try_except
    (print "🔄 Connecting to PostgreSQL to reset password...";;;
     conn <- connect None;;
     db_call SetIsolationLevel;;;
     db_call Cursor;;;
     db_call (Execute "ALTER USER postgres PASSWORD '1';");;;
     print "✅ Password reset to '1' for user 'postgres'";;;
     db_call (Execute "SELECT 1 FROM pg_database WHERE datname='testdb'");;;
     row <- fetchone;;
     (if no_row row then
        db_call (Execute "CREATE DATABASE testdb;");;;
        print "✅ Created test database 'testdb'"
      else ret tt);;;
     db_call CursorClose;;;
     conn_close conn;;;
     ret true)
    (fun e => print ("❌ Failed to reset password: " +:+ str e);;; ret false).

(** [row[0]] *)
Definition first_column (row : option (list string)) : M string :=
  match row with
  | None => raise (TypeError "'NoneType' object is not subscriptable")
  | Some [] => raise (IndexError "tuple index out of range")
  | Some (v :: _) => ret v
  end.

Definition test_connection : M bool :=
  try_except
    (print "🔄 Testing connection with new credentials...";;;
     conn <- connect (Some "1");;
     db_call Cursor;;;
     db_call (Execute "SELECT version();");;;
     row <- fetchone;;
     version <- first_column row;;
     print ("✅ Connection successful! PostgreSQL version: " +:+ version);;;
     db_call CursorClose;;;
     conn_close conn;;;
     ret true)
    (fun e => print ("❌ Connection test failed: " +:+ str e);;; ret false).

(** ** The workflow (lines 278-346) *)

(** Step 6, lines 329-342. *)
Definition main_step6 : M bool :=
  verified <- test_connection;;
  if verified then
    print "
🎉 SUCCESS!";;;
    print "PostgreSQL has been reset with the following credentials:";;;
    print "  Host: localhost";;;
    print "  Port: 5432";;;
    print "  User: postgres";;;
    print "  Password: 1";;;
    print "  Database: postgres";;;
    ret true
  else
    print "
❌ FAILED!";;;
    print "Something went wrong. Check the error messages above.";;;
    ret false.

(** Step 5, lines 321-327: the three results are dropped. *)
Definition main_step5 : M bool :=
  stop_postgres;;;
  create_secure_pg_hba;;;
  start_postgres;;;
  sleep 3;;;
  main_step6.

(** Step 4, lines 313-319. *)
Definition main_step4 : M bool :=
  changed <- reset_postgres_password;;
  if negb changed then
    print "❌ Failed to reset password. Restoring original config...";;;
    stop_postgres;;;
    restore_postgres_auth;;;
    start_postgres;;;
    ret false
  else main_step5.

(** Step 3, lines 303-311. *)
Definition main_step3 : M bool :=
  started <- start_postgres;;
  if negb started then
    print "❌ Failed to start PostgreSQL. Exiting.";;; ret false
  else
    print "⏳ Waiting for PostgreSQL to start...";;;
    sleep 3;;;
    main_step4.

(** Step 2, lines 298-301. *)
Definition main_step2 : M bool :=
  relaxed <- reset_postgres_auth;;
  if negb relaxed then
    print "❌ Failed to reset authentication. Exiting.";;; ret false
  else main_step3.

(** Lines 280-281. *)
Definition banner : M unit :=
  print "🚀 PostgreSQL Reset Script";;;
  print "==================================================".

(** The banner and step 1, lines 280-296.  The script has imported
    [psycopg2] in line 11 before [main] exists, so the import of line 285
    finds the module and its handler is never entered. *)
Definition main_step1 : M unit :=
  banner;;;
  stopped <- stop_postgres;;
  if negb stopped then print "⚠️  Continuing anyway..." else ret tt.

Definition main : M bool :=
  main_step1;;;
  main_step2.

(** Lines 11 and 344-346: the exit status of the process.  A failed import
    in line 11 and an exception leaving [main] both end the interpreter
    with status 1. *)
Definition script (s : State) : Z * State :=
  if has_psycopg2 h then
    match main s with
    | (Val success, s') => ((if success then 0 else 1)%Z, s')
    | (Raise _, s') => (1%Z, s')
    end
  else (1%Z, s).

End Script.

(** ** The phases of a run

    The program points of [main] at which a step begins, named after the
    step they begin: [Relaxing] is step 2 (line 298), [StartingRelaxed]
    step 3 (line 303), [ChangingCredential] step 4 (line 313),
    [StoppingForSecure], [Securing] and [StartingSecure] the three calls
    of step 5 (lines 322, 323 and 324) and [Verifying] step 6 (line 329). *)
Inductive Phase : Type :=
  | Relaxing
  | StartingRelaxed
  | ChangingCredential
  | StoppingForSecure
  | Securing
  | StartingSecure
  | Verifying.

(** What remains of [main] from a phase on. *)
Definition continue (h : Host) (p : Phase) : M bool :=
  match p with
  | Relaxing => main_step2 h
  | StartingRelaxed => main_step3 h
  | ChangingCredential => main_step4 h
  | StoppingForSecure => main_step5 h
  | Securing =>
      create_secure_pg_hba h;;; start_postgres h;;; sleep 3;;; main_step6 h
  | StartingSecure => start_postgres h;;; sleep 3;;; main_step6 h
  | Verifying => main_step6 h
  end.

(** [enters h s0 p s]: the run of [main] started in [s0] reaches phase [p],
    in state [s]. *)
Inductive enters (h : Host) (s0 : State) : Phase -> State -> Prop :=
  | enters_relaxing s :
      main_step1 h s0 = (Val tt, s) ->
      enters h s0 Relaxing s
  | enters_starting_relaxed s s' :
      enters h s0 Relaxing s ->
      reset_postgres_auth h s = (Val true, s') ->
      enters h s0 StartingRelaxed s'
  | enters_changing_credential s s' :
      enters h s0 StartingRelaxed s ->
      start_postgres h s = (Val true, s') ->
      enters h s0 ChangingCredential
        (exec (print "⏳ Waiting for PostgreSQL to start...";;; sleep 3) s')
  | enters_stopping_for_secure s s' :
      enters h s0 ChangingCredential s ->
      reset_postgres_password h s = (Val true, s') ->
      enters h s0 StoppingForSecure s'
  | enters_securing s b s' :
      enters h s0 StoppingForSecure s ->
      stop_postgres h s = (Val b, s') ->
      enters h s0 Securing s'
  | enters_starting_secure s b s' :
      enters h s0 Securing s ->
      create_secure_pg_hba h s = (Val b, s') ->
      enters h s0 StartingSecure s'
  | enters_verifying s b s' :
      enters h s0 StartingSecure s ->
      start_postgres h s = (Val b, s') ->
      enters h s0 Verifying (exec (sleep 3) s').

(** ** Reading the templates

    The records of an authentication-policy text: its lines that are
    neither empty nor comments, each split into its columns. *)

Definition is_blank (c : ascii) : bool :=
  Ascii.eqb c " " || Ascii.eqb c (ascii_of_nat 9).

Definition newline : ascii := ascii_of_nat 10.

(** Splits at the characters [sep] accepts; [cur] is the piece being read,
    in reverse. *)
Fixpoint split_on (sep : ascii -> bool) (cur : list ascii) (s : string)
  : list string :=
  match s with
  | EmptyString => [string_of_list_ascii (rev cur)]
  | String c rest =>
      if sep c then string_of_list_ascii (rev cur) :: split_on sep [] rest
      else split_on sep (c :: cur) rest
  end.

Definition nonempty (s : string) : bool :=
  match s with EmptyString => false | String _ _ => true end.

Definition columns (line : string) : list string :=
  List.filter nonempty (split_on is_blank [] line).

Definition is_comment (line : string) : bool :=
  match line with String "#" _ => true | _ => false end.

Definition hba_records (text : string) : list (list string) :=
  List.filter (fun r => match r with [] => false | _ :: _ => true end)
    (List.map columns
       (List.filter (fun l => negb (is_comment l))
          (split_on (Ascii.eqb newline) [] text))).

(** ** Sample hosts *)

Definition original_policy : string :=
"local   all             all                                     peer
".

(** A Linux host on which everything works. *)
Definition linux_host : Host :=
  {| system := "linux";
     has_psycopg2 := true;
     spawn := fun _ _ => Val (0%Z, EmptyString, EmptyString);
     dirs := fun p => String.eqb p "/var/lib/postgresql/data";
     open_fault := fun _ _ _ => None;
     read_fault := fun _ _ => None;
     write_fault := fun _ _ => None;
     db_fault := fun _ _ => None;
     db_row := fun _ => Some ["PostgreSQL 14.5"] |}.

Definition linux_pg_hba : string := "/var/lib/postgresql/data/pg_hba.conf".

Definition linux_files : gmap string string :=
  {[ linux_pg_hba := original_policy ]}.

(** The same host, whose commands fail from the n-th external call on. *)
Definition commands_fail_from (n : nat) : Host :=
  {| system := "linux";
     has_psycopg2 := true;
     spawn := fun t _ =>
       if Nat.leb n t then Val (1%Z, EmptyString, "Job for postgresql.service failed")
       else Val (0%Z, EmptyString, EmptyString);
     dirs := dirs linux_host;
     open_fault := fun _ _ _ => None;
     read_fault := fun _ _ => None;
     write_fault := fun _ _ => None;
     db_fault := fun _ _ => None;
     db_row := db_row linux_host |}.

(** The same host, on which the files cannot be opened from the n-th
    external call on. *)
Definition opens_fail_from (n : nat) : Host :=
  {| system := "linux";
     has_psycopg2 := true;
     spawn := spawn linux_host;
     dirs := dirs linux_host;
     open_fault := fun t _ _ =>
       if Nat.leb n t then Some "Permission denied" else None;
     read_fault := fun _ _ => None;
     write_fault := fun _ _ => None;
     db_fault := fun _ _ => None;
     db_row := db_row linux_host |}.

(** The same host, whose database refuses the calls [bad] accepts. *)
Definition database_fails (bad : DbCall -> bool) : Host :=
  {| system := "linux";
     has_psycopg2 := true;
     spawn := spawn linux_host;
     dirs := dirs linux_host;
     open_fault := fun _ _ _ => None;
     read_fault := fun _ _ => None;
     write_fault := fun _ _ => None;
     db_fault := fun _ c => if bad c then Some "server closed the connection" else None;
     db_row := db_row linux_host |}.

(** The state in which the run on [linux_host] reaches the secure write. *)
Definition linux_securing_state : State :=
  exec (stop_postgres linux_host)
    (exec (reset_postgres_password linux_host)
       (exec (print "⏳ Waiting for PostgreSQL to start...";;; sleep 3)
          (exec (start_postgres linux_host)
             (exec (reset_postgres_auth linux_host)
                (exec (main_step1 linux_host) (init linux_files)))))).

(** A host of a platform the script does not know. *)
Definition freebsd_host : Host :=
  {| system := "freebsd";
     has_psycopg2 := true;
     spawn := spawn linux_host;
     dirs := fun _ => true;
     open_fault := fun _ _ _ => None;
     read_fault := fun _ _ => None;
     write_fault := fun _ _ => None;
     db_fault := fun _ _ => None;
     db_row := db_row linux_host |}.

(** The same host, whose disk is full from the n-th external call on: a
    write gets twelve characters out and fails. *)
Definition disk_full_from (n : nat) : Host :=
  {| system := "linux";
     has_psycopg2 := true;
     spawn := spawn linux_host;
     dirs := dirs linux_host;
     open_fault := fun _ _ _ => None;
     read_fault := fun _ _ => None;
     write_fault := fun t _ =>
       if Nat.leb n t then Some (12, "No space left on device") else None;
     db_fault := fun _ _ => None;
     db_row := db_row linux_host |}.

(** A Windows host with the service of PostgreSQL 16 only. *)
Definition windows_host : Host :=
  {| system := "windows";
     has_psycopg2 := true;
     spawn := fun _ command =>
       if String.eqb command ("sc query " +:+ dq +:+ "postgresql-x64-16" +:+ dq)
       then Val (0%Z, EmptyString, EmptyString)
       else Val (1060%Z, EmptyString, "The specified service does not exist");
     dirs := fun p => String.eqb p "C:\Program Files\PostgreSQL\16\data";
     open_fault := fun _ _ _ => None;
     read_fault := fun _ _ => None;
     write_fault := fun _ _ => None;
     db_fault := fun _ _ => None;
     db_row := fun _ => Some ["PostgreSQL 16.1"] |}.

(** ** Predicates of the proofs *)

(** The last character of [String d s]. *)
Fixpoint last_char (s : string) (d : ascii) : ascii :=
  match s with
  | EmptyString => d
  | String c rest => last_char rest c
  end.

(** Frames.

    [keeps P m]: whatever [m] returns or raises, the state it ends in is
    related by [P] to the state it started in.  [total m]: [m] returns,
    it never raises. *)

Definition keeps {A : Type} (P : State -> State -> Prop) (m : M A) : Prop :=
  forall s, P s (exec m s).

Definition total {A : Type} (m : M A) : Prop :=
  forall s, exists a, fst (m s) = Val a.

Definition same_files (s s' : State) : Prop := files s' = files s.

(** Only policy files change, never another file. *)
Definition only_pg_hba (h : Host) (s s' : State) : Prop :=
  forall p, (forall d, p <> pg_hba_of h d) -> files s' !! p = files s !! p.

(** Only the file at [q] changes. *)
Definition only_path (q : string) (s s' : State) : Prop :=
  forall p, p <> q -> files s' !! p = files s !! p.

(** The database calls the sample hosts refuse. *)
Definition is_version_query (c : DbCall) : bool :=
  match c with
  | Execute sql => String.eqb sql "SELECT version();"
  | _ => false
  end.

Definition is_alter_user (c : DbCall) : bool :=
  match c with
  | Execute sql => String.eqb sql "ALTER USER postgres PASSWORD '1';"
  | _ => false
  end.

(** Whether [sc query] of a service succeeds at the t-th external call. *)
Definition sc_query_ok (h : Host) (t : nat) (service : string) : bool :=
  match spawn h t ("sc query " +:+ dq +:+ service +:+ dq) with
  | Val (returncode, _, _) => Z.eqb returncode 0
  | Raise _ => false
  end.

(** The first candidate, in order, whose probe succeeds; the candidate at
    position i is probed at time [t + i]. *)
Definition first_probed (ok : nat -> string -> bool) (t : nat)
    (candidates : list string) : option string :=
  option_map snd
    (List.find (fun '(n, c) => ok n c)
       (combine (seq t (length candidates)) candidates)).

(** ** Further sample hosts *)

Definition is_create_database (c : DbCall) : bool :=
  match c with
  | Execute sql => String.eqb sql "CREATE DATABASE testdb;"
  | _ => false
  end.

(** The Linux host with no test database and no right to create one. *)
Definition testdb_refused : Host :=
  {| system := "linux";
     has_psycopg2 := true;
     spawn := spawn linux_host;
     dirs := dirs linux_host;
     open_fault := fun _ _ _ => None;
     read_fault := fun _ _ => None;
     write_fault := fun _ _ => None;
     db_fault := fun _ c =>
       if is_create_database c then Some "permission denied to create database"
       else None;
     db_row := fun _ => None |}.

(** ** Predicates of the further properties *)

(** Only policy files and their backups change. *)
Definition only_policy_files (h : Host) (s s' : State) : Prop :=
  forall p,
    (forall d, p <> pg_hba_of h d) ->
    (forall d, p <> backup_of (pg_hba_of h d)) ->
    files s' !! p = files s !! p.

(** Every file that was there is still there. *)
Definition no_file_lost (s s' : State) : Prop :=
  forall p, is_Some (files s !! p) -> is_Some (files s' !! p).

Definition same_conns (s s' : State) : Prop := open_conns s' = open_conns s.

(** Whether a command exits with status 0 at the t-th external call. *)
Definition command_ok (h : Host) (t : nat) (command : string) : bool :=
  match spawn h t command with
  | Val (returncode, _, _) => Z.eqb returncode 0
  | Raise _ => false
  end.

Definition sc_query (service : string) : string :=
  "sc query " +:+ dq +:+ service +:+ dq.

(** How many candidates are probed from time [t] on: all up to and
    including the first whose probe succeeds. *)
Fixpoint probes_made (ok : nat -> string -> bool) (t : nat)
    (candidates : list string) : nat :=
  match candidates with
  | [] => 0
  | c :: rest => S (if ok t c then 0 else probes_made ok (S t) rest)
  end.

(** The database calls of the credential change, in order, up to the
    lookup of the test database. *)
Definition password_calls : list DbCall :=
  [ Connect "localhost" "postgres" "postgres" None;
    SetIsolationLevel;
    Cursor;
    Execute "ALTER USER postgres PASSWORD '1';";
    Execute "SELECT 1 FROM pg_database WHERE datname='testdb'";
    Fetchone ].

(** Only the policy file of the data directory [r] and its backup change;
    nothing at all when there is no data directory. *)
Definition only_two (h : Host) (r : option string) (s s' : State) : Prop :=
  forall p,
    (forall d, r = Some d ->
               p <> pg_hba_of h d /\ p <> backup_of (pg_hba_of h d)) ->
    files s' !! p = files s !! p.

(** The data directory the host shows in a state. *)
Definition data_dir_is (h : Host) (r : option string) (s : State) : Prop :=
  List.find (path_exists h s) (common_paths h) = r.

(** [keeps_from I P m]: started where [I] holds, [m] ends where [I] holds,
    in a state related by [P] to the one it started in. *)
Definition keeps_from {A : Type} (I : State -> Prop)
    (P : State -> State -> Prop) (m : M A) : Prop :=
  forall s, I s -> I (exec m s) /\ P s (exec m s).

(** * Properties *)

(** ** Strings and paths *)

Lemma append_cons (x : ascii) (a b : string) :
  String x a +:+ b = String x (a +:+ b).
Proof. reflexivity. Qed.

Lemma length_append (a b : string) :
  String.length (a +:+ b) = String.length a + String.length b.
Proof.
  induction a as [|x a IH]; [reflexivity |].
  rewrite append_cons. simpl. now rewrite IH.
Qed.

Lemma backup_of_neq (p : string) : backup_of p <> p.
Proof.
  unfold backup_of. intros E.
  apply (f_equal String.length) in E. rewrite length_append in E.
  simpl in E. lia.
Qed.

Lemma last_char_append (a b : string) (c d : ascii) :
  last_char (a +:+ String c b) d = last_char b c.
Proof.
  revert d. induction a as [|x a IH]; intros d; [reflexivity |].
  rewrite append_cons. simpl. apply IH.
Qed.

Lemma append_assoc (a b c : string) : (a +:+ b) +:+ c = a +:+ (b +:+ c).
Proof.
  induction a as [|x a IH]; [reflexivity |].
  rewrite !append_cons. now rewrite IH.
Qed.

(** No policy file is the backup of a policy file. *)
Lemma pg_hba_not_backup (h : Host) (d d' : string) :
  pg_hba_of h d <> backup_of (pg_hba_of h d').
Proof.
  unfold backup_of, pg_hba_of, os_path_join. intros E.
  apply (f_equal (fun s => last_char s "x"%char)) in E.
  rewrite !append_assoc in E.
  destruct (String.eqb (system h) "windows");
    cbv [String.append] in E; fold String.append in E;
    rewrite !last_char_append in E; simpl in E; discriminate.
Qed.

(** ** Frames *)

Lemma run_eq {A : Type} (m : M A) (s : State) : m s = (fst (m s), exec m s).
Proof. unfold exec. destruct (m s); reflexivity. Qed.

Lemma run_val {A : Type} (m : M A) (s : State) (a : A) :
  fst (m s) = Val a -> m s = (Val a, exec m s).
Proof. intros E. rewrite (run_eq m s), E. reflexivity. Qed.

Lemma total_run {A : Type} (m : M A) (s : State) :
  total m -> exists a, m s = (Val a, exec m s).
Proof. intros T. destruct (T s) as [a Ha]. exists a. rewrite (run_eq m s), Ha. reflexivity. Qed.

Lemma bind_val {A B : Type} (m : M A) (k : A -> M B) (s s' : State) (a : A) :
  m s = (Val a, s') -> bind m k s = k a s'.
Proof. intros E. unfold bind. rewrite E. reflexivity. Qed.

Section Frames.

Variable P : State -> State -> Prop.
Hypothesis P_refl : forall s, P s s.
Hypothesis P_trans : forall s1 s2 s3, P s1 s2 -> P s2 s3 -> P s1 s3.
Hypothesis P_log : forall s l c, P s {| files := files s; open_conns := open_conns s; clock := c; log := l |}.
Hypothesis P_conns : forall s cs, P s (set_conns cs s).

Lemma keeps_ret {A : Type} (a : A) : keeps P (ret a).
Proof. intros s. apply P_refl. Qed.

Lemma keeps_raise {A : Type} (e : Exn) : keeps P (@raise A e).
Proof. intros s. apply P_refl. Qed.

Lemma keeps_bind {A B : Type} (m : M A) (k : A -> M B) :
  keeps P m -> (forall a, keeps P (k a)) -> keeps P (bind m k).
Proof.
  intros Hm Hk s. specialize (Hm s). unfold exec, bind in *.
  destruct (m s) as [[a|e] s1]; simpl in *; [| exact Hm].
  eapply P_trans; [exact Hm | apply Hk].
Qed.

Lemma keeps_try_except {A : Type} (body : M A) (handler : Exn -> M A) :
  keeps P body -> (forall e, keeps P (handler e)) -> keeps P (try_except body handler).
Proof.
  intros Hm Hk s. specialize (Hm s). unfold exec, try_except in *.
  destruct (body s) as [[a|e] s1]; simpl in *; [exact Hm |].
  eapply P_trans; [exact Hm | apply Hk].
Qed.

Lemma keeps_emit (e : Event) : keeps P (emit e).
Proof. intros s. apply P_log. Qed.

Lemma keeps_call (e : Event) : keeps P (call e).
Proof. intros s. apply P_log. Qed.

Lemma keeps_print (line : string) : keeps P (print line).
Proof. apply keeps_emit. Qed.

Lemma keeps_sleep (n : nat) : keeps P (sleep n).
Proof. apply keeps_emit. Qed.

Lemma keeps_os_path_exists (h : Host) (path : string) : keeps P (os_path_exists h path).
Proof. intros s. apply P_refl. Qed.

Lemma keeps_run_command (h : Host) (command : string) : keeps P (run_command h command).
Proof.
  unfold run_command, subprocess_run.
  apply keeps_try_except; [| intros e; apply keeps_ret].
  apply keeps_bind; [| intros [[rc out] err]; apply keeps_ret].
  apply keeps_bind; [apply keeps_call |].
  intros t. destruct (spawn h t command); [apply keeps_ret | apply keeps_raise].
Qed.

Lemma keeps_probe_services (h : Host) (services : list string) :
  keeps P (probe_services h services).
Proof.
  induction services as [|service rest IH]; simpl; [apply keeps_ret |].
  apply keeps_bind; [apply keeps_run_command |].
  intros [[[] out] err]; [apply keeps_ret | exact IH].
Qed.

Lemma keeps_find_postgres_service (h : Host) : keeps P (find_postgres_service h).
Proof.
  unfold find_postgres_service.
  repeat (match goal with |- context [if ?b then _ else _] => destruct b end);
    try apply keeps_ret.
  apply keeps_probe_services.
Qed.

Lemma keeps_probe_paths (h : Host) (paths : list string) :
  keeps P (probe_paths h paths).
Proof.
  induction paths as [|path rest IH]; simpl; [apply keeps_ret |].
  apply keeps_bind; [apply keeps_os_path_exists |].
  intros []; [apply keeps_ret | exact IH].
Qed.

Lemma keeps_find_postgres_data_dir (h : Host) : keeps P (find_postgres_data_dir h).
Proof. apply keeps_probe_paths. Qed.

Lemma keeps_stop_postgres (h : Host) : keeps P (stop_postgres h).
Proof.
  unfold stop_postgres.
  apply keeps_bind; [apply keeps_find_postgres_service |].
  intros [name|]; [| apply keeps_bind; [apply keeps_print | intros; apply keeps_ret]].
  apply keeps_bind; [apply keeps_print | intros _].
  apply keeps_bind; [destruct (String.eqb (system h) "windows"); apply keeps_run_command |].
  intros [[[] out] err]; (apply keeps_bind; [apply keeps_print | intros; apply keeps_ret]).
Qed.

Lemma keeps_start_postgres (h : Host) : keeps P (start_postgres h).
Proof.
  unfold start_postgres.
  apply keeps_bind; [apply keeps_find_postgres_service |].
  intros [name|]; [| apply keeps_bind; [apply keeps_print | intros; apply keeps_ret]].
  apply keeps_bind; [apply keeps_print | intros _].
  apply keeps_bind; [destruct (String.eqb (system h) "windows"); apply keeps_run_command |].
  intros [[[] out] err]; (apply keeps_bind; [apply keeps_print | intros; apply keeps_ret]).
Qed.

Lemma keeps_db_call (h : Host) (c : DbCall) : keeps P (db_call h c).
Proof.
  unfold db_call. apply keeps_bind; [apply keeps_call |].
  intros t. destruct (db_fault h t c); [apply keeps_raise | apply keeps_ret].
Qed.

Lemma keeps_connect (h : Host) (password : option string) : keeps P (connect h password).
Proof.
  unfold connect. apply keeps_bind; [apply keeps_db_call |].
  intros conn s. apply P_conns.
Qed.

Lemma keeps_conn_close (h : Host) (conn : nat) : keeps P (conn_close h conn).
Proof.
  unfold conn_close. apply keeps_bind; [apply keeps_db_call |].
  intros _ s. apply P_conns.
Qed.

Lemma keeps_fetchone (h : Host) : keeps P (fetchone h).
Proof.
  unfold fetchone. apply keeps_bind; [apply keeps_db_call | intros; apply keeps_ret].
Qed.

End Frames.

Lemma same_files_refl s : same_files s s.
Proof. reflexivity. Qed.

Lemma same_files_trans s1 s2 s3 : same_files s1 s2 -> same_files s2 s3 -> same_files s1 s3.
Proof. unfold same_files. congruence. Qed.

Lemma only_path_refl q s : only_path q s s.
Proof. intros p _. reflexivity. Qed.

Lemma only_path_trans q s1 s2 s3 :
  only_path q s1 s2 -> only_path q s2 s3 -> only_path q s1 s3.
Proof. intros H1 H2 p Hp. rewrite (H2 p Hp). apply H1, Hp. Qed.

Lemma only_pg_hba_refl h s : only_pg_hba h s s.
Proof. intros p _. reflexivity. Qed.

Lemma only_pg_hba_trans h s1 s2 s3 :
  only_pg_hba h s1 s2 -> only_pg_hba h s2 s3 -> only_pg_hba h s1 s3.
Proof. intros H1 H2 p Hp. rewrite (H2 p Hp). apply H1, Hp. Qed.

Lemma keeps_weaken {A : Type} (P Q : State -> State -> Prop) (m : M A) :
  (forall s s', P s s' -> Q s s') -> keeps P m -> keeps Q m.
Proof. intros HPQ Hm s. apply HPQ, Hm. Qed.

Lemma only_path_pg_hba h d s s' : only_path (pg_hba_of h d) s s' -> only_pg_hba h s s'.
Proof. intros H p Hp. apply H, Hp. Qed.

Lemma same_files_only_pg_hba h s s' : same_files s s' -> only_pg_hba h s s'.
Proof. intros E p _. now rewrite E. Qed.

(** The frame lemmas at the three relations. *)
Ltac frame_side :=
  first [ exact same_files_refl | exact same_files_trans
        | apply only_path_refl | apply only_path_trans
        | apply only_pg_hba_refl | apply only_pg_hba_trans
        | (intros; reflexivity)
        | (intros ? ? ? ? ?; reflexivity) ].

Lemma stop_postgres_same_files h : keeps same_files (stop_postgres h).
Proof. apply keeps_stop_postgres; frame_side. Qed.

Lemma start_postgres_same_files h : keeps same_files (start_postgres h).
Proof. apply keeps_start_postgres; frame_side. Qed.

(** ** Totality: what never raises *)

Lemma total_ret {A : Type} (a : A) : total (ret a).
Proof. intros s. now exists a. Qed.

Lemma total_bind {A B : Type} (m : M A) (k : A -> M B) :
  total m -> (forall a, total (k a)) -> total (bind m k).
Proof.
  intros Hm Hk s. destruct (total_run m s Hm) as [a Ha].
  rewrite (bind_val _ _ _ _ _ Ha). apply Hk.
Qed.

Lemma total_try_except {A : Type} (body : M A) (handler : Exn -> M A) :
  (forall e, total (handler e)) -> total (try_except body handler).
Proof.
  intros Hk s. unfold try_except.
  destruct (body s) as [[a|e] s1]; [now exists a | apply Hk].
Qed.

Lemma total_emit (e : Event) : total (emit e).
Proof. intros s. now exists tt. Qed.

Lemma total_print (line : string) : total (print line).
Proof. apply total_emit. Qed.

Lemma total_sleep (n : nat) : total (sleep n).
Proof. apply total_emit. Qed.

Lemma total_os_path_exists h path : total (os_path_exists h path).
Proof. intros s. eexists. reflexivity. Qed.

Lemma total_run_command h command : total (run_command h command).
Proof. apply total_try_except. intros e. apply total_ret. Qed.

Lemma total_probe_services h services : total (probe_services h services).
Proof.
  induction services as [|service rest IH]; simpl; [apply total_ret |].
  apply total_bind; [apply total_run_command |].
  intros [[[] out] err]; [apply total_ret | exact IH].
Qed.

Lemma total_find_postgres_service h : total (find_postgres_service h).
Proof.
  unfold find_postgres_service.
  repeat (match goal with |- context [if ?b then _ else _] => destruct b end);
    try apply total_ret.
  apply total_probe_services.
Qed.

Lemma total_probe_paths h paths : total (probe_paths h paths).
Proof.
  induction paths as [|path rest IH]; simpl; [apply total_ret |].
  apply total_bind; [apply total_os_path_exists |].
  intros []; [apply total_ret | exact IH].
Qed.

Lemma total_find_postgres_data_dir h : total (find_postgres_data_dir h).
Proof. apply total_probe_paths. Qed.

Create HintDb total discriminated.
#[local] Hint Resolve total_ret total_print total_sleep total_os_path_exists
  total_run_command total_find_postgres_service total_find_postgres_data_dir
  : total.

(** Peels binds, handlers and branches off a totality goal. *)
Ltac total_step :=
  match goal with
  | |- total (bind _ _) => apply total_bind; [| intros ?]
  | |- total (try_except _ _) => apply total_try_except; intros ?
  | |- total (if ?b then _ else _) => destruct b
  | |- total (match ?x with _ => _ end) => destruct x
  | |- total _ => solve [auto with total]
  end.

Lemma total_stop_postgres h : total (stop_postgres h).
Proof. unfold stop_postgres. repeat total_step. Qed.

Lemma total_start_postgres h : total (start_postgres h).
Proof. unfold start_postgres. repeat total_step. Qed.

Lemma total_backup_pg_hba h path : total (backup_pg_hba h path).
Proof. unfold backup_pg_hba. repeat total_step. Qed.

Lemma total_write_trust h path : total (write_trust h path).
Proof. unfold write_trust. repeat total_step. Qed.

#[local] Hint Resolve total_stop_postgres total_start_postgres
  total_backup_pg_hba total_write_trust : total.

Lemma total_reset_postgres_auth h : total (reset_postgres_auth h).
Proof. unfold reset_postgres_auth. repeat total_step. Qed.

Lemma total_restore_postgres_auth h : total (restore_postgres_auth h).
Proof. unfold restore_postgres_auth. repeat total_step. Qed.

Lemma total_create_secure_pg_hba h : total (create_secure_pg_hba h).
Proof. unfold create_secure_pg_hba. repeat total_step. Qed.

Lemma total_reset_postgres_password h : total (reset_postgres_password h).
Proof. unfold reset_postgres_password. repeat total_step. Qed.

Lemma total_test_connection h : total (test_connection h).
Proof. unfold test_connection. repeat total_step. Qed.

#[local] Hint Resolve total_reset_postgres_auth total_restore_postgres_auth
  total_create_secure_pg_hba total_reset_postgres_password
  total_test_connection : total.

Lemma total_main_step6 h : total (main_step6 h).
Proof. unfold main_step6. repeat total_step. Qed.

#[local] Hint Resolve total_main_step6 : total.

Lemma total_main_step5 h : total (main_step5 h).
Proof. unfold main_step5. repeat total_step. Qed.

#[local] Hint Resolve total_main_step5 : total.

Lemma total_main_step4 h : total (main_step4 h).
Proof. unfold main_step4. repeat total_step. Qed.

#[local] Hint Resolve total_main_step4 : total.

Lemma total_main_step3 h : total (main_step3 h).
Proof. unfold main_step3. repeat total_step. Qed.

#[local] Hint Resolve total_main_step3 : total.

Lemma total_main_step2 h : total (main_step2 h).
Proof. unfold main_step2. repeat total_step. Qed.

Lemma total_main_step1 h : total (main_step1 h).
Proof. unfold main_step1, banner. repeat total_step. Qed.

#[local] Hint Resolve total_main_step2 total_main_step1 : total.

Lemma total_continue h p : total (continue h p).
Proof. destruct p; simpl; repeat total_step. Qed.


(** ** A run is the rest of [main] from any phase it enters *)

Lemma main_enters h s0 p s :
  enters h s0 p s -> main h s0 = continue h p s.
Proof.
  induction 1 as [s H1 | s s' _ IH H2 | s s' _ IH H2 | s s' _ IH H2
                 | s b s' _ IH H2 | s b s' _ IH H2 | s b s' _ IH H2].
  - unfold main. now rewrite (bind_val _ _ _ _ _ H1).
  - rewrite IH. simpl. unfold main_step2. now rewrite (bind_val _ _ _ _ _ H2).
  - rewrite IH. simpl. unfold main_step3. now rewrite (bind_val _ _ _ _ _ H2).
  - rewrite IH. simpl. unfold main_step4. now rewrite (bind_val _ _ _ _ _ H2).
  - rewrite IH. simpl. unfold main_step5. now rewrite (bind_val _ _ _ _ _ H2).
  - rewrite IH. simpl. now rewrite (bind_val _ _ _ _ _ H2).
  - rewrite IH. simpl. now rewrite (bind_val _ _ _ _ _ H2).
Qed.

(** Every run enters the first phase: the banner and step 1 never raise. *)
Lemma enters_relaxing_total h s0 : enters h s0 Relaxing (exec (main_step1 h) s0).
Proof.
  apply enters_relaxing.
  destruct (total_run _ s0 (total_main_step1 h)) as [[] E]. exact E.
Qed.

Lemma main_step1_same_files h : keeps same_files (main_step1 h).
Proof.
  unfold main_step1, banner.
  apply keeps_bind; [exact same_files_trans | | intros _].
  { apply keeps_bind;
      [exact same_files_trans | apply keeps_print; intros; reflexivity | intros _].
    apply keeps_print; intros; reflexivity. }
  apply keeps_bind;
    [exact same_files_trans | apply stop_postgres_same_files | intros stopped].
  destruct stopped; simpl;
    [apply keeps_ret | apply keeps_print]; intros; reflexivity.
Qed.

(** ** The file operations *)

Lemma keeps_open_read (P : State -> State -> Prop) h path :
  (forall s l c, P s {| files := files s; open_conns := open_conns s; clock := c; log := l |}) ->
  keeps P (open_file h path ModeR).
Proof.
  intros P_log s. unfold exec, open_file, bind, call, raise. simpl.
  destruct (open_fault h (clock s) path ModeR); simpl; [apply P_log |].
  destruct (files s !! path); simpl; apply P_log.
Qed.

Lemma keeps_file_read (P : State -> State -> Prop) h path :
  (forall s l c, P s {| files := files s; open_conns := open_conns s; clock := c; log := l |}) ->
  keeps P (file_read h path).
Proof.
  intros P_log s. unfold exec, file_read, bind, call, raise. simpl.
  destruct (read_fault h (clock s) path); simpl; [apply P_log |].
  destruct (files s !! path); simpl; apply P_log.
Qed.

Lemma keeps_open_write h path : keeps (only_path path) (open_file h path ModeW).
Proof.
  intros s p Hp. unfold exec, open_file, bind, call, raise. simpl.
  destruct (open_fault h (clock s) path ModeW); simpl; [reflexivity |].
  now apply lookup_insert_ne.
Qed.

Lemma keeps_file_write h path data : keeps (only_path path) (file_write h path data).
Proof.
  intros s p Hp. unfold exec, file_write, bind, call. simpl.
  destruct (write_fault h (clock s) path) as [[n msg]|]; simpl;
    now apply lookup_insert_ne.
Qed.

Lemma only_path_log q s l c :
  only_path q s {| files := files s; open_conns := open_conns s; clock := c; log := l |}.
Proof. intros p _. reflexivity. Qed.

Lemma keeps_write_text h path data : keeps (only_path path) (write_text h path data).
Proof.
  unfold write_text. apply keeps_bind.
  - apply only_path_trans.
  - apply keeps_open_write.
  - intros _. apply keeps_file_write.
Qed.

Lemma keeps_copy_text h src dst : keeps (only_path dst) (copy_text h src dst).
Proof.
  unfold copy_text.
  apply keeps_bind; [apply only_path_trans | apply keeps_open_read, only_path_log | intros _].
  apply keeps_bind; [apply only_path_trans | apply keeps_open_write | intros _].
  apply keeps_bind; [apply only_path_trans | apply keeps_file_read, only_path_log | intros data].
  apply keeps_file_write.
Qed.

(** A text that was written is the content of the file. *)
Lemma write_text_val h path data s s' :
  write_text h path data s = (Val tt, s') -> files s' !! path = Some data.
Proof.
  unfold write_text, open_file, file_write, bind, call, raise. simpl.
  destruct (open_fault h (clock s) path ModeW); simpl; [discriminate |].
  destruct (write_fault h (S (clock s)) path) as [[n msg]|]; simpl; [discriminate |].
  intros E. inversion E; subst; clear E. simpl. apply lookup_insert_eq.
Qed.

(** A copy that was made holds what the source held. *)
Lemma copy_text_val h src dst s s' :
  src <> dst ->
  copy_text h src dst s = (Val tt, s') ->
  exists data, files s !! src = Some data /\ files s' !! dst = Some data.
Proof.
  intros Hne. unfold copy_text, open_file, file_read, file_write, bind, call, raise. simpl.
  destruct (open_fault h (clock s) src ModeR); simpl; [discriminate |].
  destruct (files s !! src) as [data|] eqn:Hsrc; simpl; [| discriminate].
  destruct (open_fault h (S (clock s)) dst ModeW); simpl; [discriminate |].
  destruct (read_fault h (S (S (clock s))) src); simpl; [discriminate |].
  rewrite lookup_insert_ne by congruence. rewrite Hsrc. simpl.
  destruct (write_fault h (S (S (S (clock s)))) dst) as [[n msg]|]; simpl; [discriminate |].
  intros E. inversion E; subst; clear E. simpl.
  exists data. split; [reflexivity | apply lookup_insert_eq].
Qed.

(** The three handlers of the file functions have one shape. *)
Lemma guarded_val (body : M unit) (ok : string) (failed : Exn -> string) s s' :
  try_except (body;;; print ok;;; ret true)
    (fun e => print (failed e);;; ret false) s = (Val true, s') ->
  exists s1, body s = (Val tt, s1) /\ files s' = files s1.
Proof.
  unfold try_except, bind, print, emit, ret.
  destruct (body s) as [[[]|e] s1]; simpl; intros E; inversion E; subst; clear E.
  exists s1. split; reflexivity.
Qed.

Lemma keeps_guarded (P : State -> State -> Prop) (body : M unit) (ok : string)
    (failed : Exn -> string) :
  (forall s, P s s) ->
  (forall s1 s2 s3, P s1 s2 -> P s2 s3 -> P s1 s3) ->
  (forall s l c, P s {| files := files s; open_conns := open_conns s; clock := c; log := l |}) ->
  keeps P body ->
  keeps P (try_except (body;;; print ok;;; ret true)
             (fun e => print (failed e);;; ret false)).
Proof.
  intros Hr Ht Hl Hb.
  apply keeps_try_except; [exact Ht | |].
  - apply keeps_bind; [exact Ht | exact Hb | intros _].
    apply keeps_bind; [exact Ht | now apply keeps_print | intros _; now apply keeps_ret].
  - intros e.
    apply keeps_bind; [exact Ht | now apply keeps_print | intros _; now apply keeps_ret].
Qed.

Lemma backup_pg_hba_only h path : keeps (only_path (backup_of path)) (backup_pg_hba h path).
Proof.
  apply keeps_guarded;
    [apply only_path_refl | apply only_path_trans | apply only_path_log | apply keeps_copy_text].
Qed.

Lemma backup_pg_hba_val h path s s' :
  backup_pg_hba h path s = (Val true, s') ->
  exists data, files s !! path = Some data /\ files s' !! backup_of path = Some data.
Proof.
  intros E. apply guarded_val in E. destruct E as (s1 & E & Hf).
  apply copy_text_val in E; [| intros C; symmetry in C; now apply backup_of_neq in C].
  rewrite Hf. exact E.
Qed.

Lemma write_trust_only h path : keeps (only_path path) (write_trust h path).
Proof.
  apply keeps_guarded;
    [apply only_path_refl | apply only_path_trans | apply only_path_log | apply keeps_write_text].
Qed.

Lemma write_trust_val h path s s' :
  write_trust h path s = (Val true, s') -> files s' !! path = Some trust_config.
Proof.
  intros E. apply guarded_val in E. destruct E as (s1 & E & Hf).
  rewrite Hf. now apply write_text_val in E.
Qed.

Lemma create_secure_pg_hba_only h : keeps (only_pg_hba h) (create_secure_pg_hba h).
Proof.
  unfold create_secure_pg_hba.
  apply keeps_bind;
    [apply only_pg_hba_trans
    | apply keeps_find_postgres_data_dir; try frame_side; apply only_pg_hba_refl | ].
  intros [d|]; [| apply keeps_ret, only_pg_hba_refl].
  apply (keeps_weaken (only_path (pg_hba_of h d))); [apply only_path_pg_hba |].
  apply keeps_guarded;
    [apply only_path_refl | apply only_path_trans | apply only_path_log | apply keeps_write_text].
Qed.

Lemma create_secure_pg_hba_val h s s' d :
  find_postgres_data_dir h s = (Val (Some d), s) ->
  create_secure_pg_hba h s = (Val true, s') ->
  files s' !! pg_hba_of h d = Some secure_config.
Proof.
  intros Hd. unfold create_secure_pg_hba.
  rewrite (bind_val _ _ _ _ _ Hd).
  intros E. apply guarded_val in E. destruct E as (s1 & E & Hf).
  rewrite Hf. now apply write_text_val in E.
Qed.

Lemma restore_postgres_auth_only h : keeps (only_pg_hba h) (restore_postgres_auth h).
Proof.
  unfold restore_postgres_auth.
  apply keeps_bind;
    [apply only_pg_hba_trans
    | apply keeps_find_postgres_data_dir; try frame_side; apply only_pg_hba_refl | ].
  intros [d|]; [| apply keeps_ret, only_pg_hba_refl].
  apply keeps_bind;
    [apply only_pg_hba_trans | apply keeps_os_path_exists, only_pg_hba_refl |].
  intros []; [| apply keeps_ret, only_pg_hba_refl].
  apply (keeps_weaken (only_path (pg_hba_of h d))); [apply only_path_pg_hba |].
  apply keeps_guarded;
    [apply only_path_refl | apply only_path_trans | apply only_path_log | apply keeps_copy_text].
Qed.

Lemma restore_postgres_auth_val h s s' d :
  find_postgres_data_dir h s = (Val (Some d), s) ->
  restore_postgres_auth h s = (Val true, s') ->
  exists data,
    files s !! backup_of (pg_hba_of h d) = Some data /\
    files s' !! pg_hba_of h d = Some data.
Proof.
  intros Hd. unfold restore_postgres_auth.
  rewrite (bind_val _ _ _ _ _ Hd).
  unfold bind at 1, os_path_exists.
  destruct (path_exists h s (backup_of (pg_hba_of h d))); [| discriminate].
  intros E. apply guarded_val in E. destruct E as (s1 & E & Hf).
  rewrite Hf. apply copy_text_val in E; [exact E | apply backup_of_neq].
Qed.

(** ** What the steps leave alone *)

Ltac same_files_step :=
  match goal with
  | |- keeps same_files (bind _ _) =>
      apply keeps_bind; [exact same_files_trans | | intros ?]
  | |- keeps same_files (try_except _ _) =>
      apply keeps_try_except; [exact same_files_trans | | intros ?]
  | |- keeps same_files (ret _) => apply keeps_ret; exact same_files_refl
  | |- keeps same_files (raise _) => apply keeps_raise; exact same_files_refl
  | |- keeps same_files (print _) => apply keeps_print; intros; reflexivity
  | |- keeps same_files (sleep _) => apply keeps_sleep; intros; reflexivity
  | |- keeps same_files (db_call _ _) =>
      apply keeps_db_call; [exact same_files_refl | exact same_files_trans | intros; reflexivity]
  | |- keeps same_files (connect _ _) =>
      apply keeps_connect;
        [exact same_files_refl | exact same_files_trans | intros; reflexivity
        | intros; reflexivity]
  | |- keeps same_files (conn_close _ _) =>
      apply keeps_conn_close;
        [exact same_files_refl | exact same_files_trans | intros; reflexivity
        | intros; reflexivity]
  | |- keeps same_files (fetchone _) =>
      apply keeps_fetchone;
        [exact same_files_refl | exact same_files_trans | intros; reflexivity]
  | |- keeps same_files (stop_postgres _) => apply stop_postgres_same_files
  | |- keeps same_files (start_postgres _) => apply start_postgres_same_files
  | |- keeps same_files (if ?b then _ else _) => destruct b
  | |- keeps same_files (match ?x with _ => _ end) => destruct x
  end.

Lemma reset_postgres_password_same_files h : keeps same_files (reset_postgres_password h).
Proof. unfold reset_postgres_password. repeat same_files_step. Qed.

Lemma test_connection_same_files h : keeps same_files (test_connection h).
Proof. unfold test_connection, first_column. repeat same_files_step. Qed.

Lemma main_step6_same_files h : keeps same_files (main_step6 h).
Proof.
  unfold main_step6.
  apply keeps_bind; [exact same_files_trans | apply test_connection_same_files | intros ?].
  repeat same_files_step.
Qed.

Lemma continue_starting_secure_same_files h : keeps same_files (continue h StartingSecure).
Proof.
  simpl.
  apply keeps_bind; [exact same_files_trans | apply start_postgres_same_files | intros ?].
  apply keeps_bind; [exact same_files_trans | same_files_step | intros ?].
  apply main_step6_same_files.
Qed.

Ltac only_pg_hba_step :=
  match goal with
  | |- keeps (only_pg_hba _) (bind _ _) =>
      apply keeps_bind; [apply only_pg_hba_trans | | intros ?]
  | |- keeps (only_pg_hba _) (restore_postgres_auth _) => apply restore_postgres_auth_only
  | |- keeps (only_pg_hba _) (create_secure_pg_hba _) => apply create_secure_pg_hba_only
  | |- keeps (only_pg_hba _) (if ?b then _ else _) => destruct b
  | |- keeps (only_pg_hba ?h) _ =>
      apply (keeps_weaken same_files); [apply same_files_only_pg_hba |];
      first [ apply main_step6_same_files | apply reset_postgres_password_same_files
            | same_files_step ]
  end.

Lemma main_step5_only_pg_hba h : keeps (only_pg_hba h) (main_step5 h).
Proof. unfold main_step5. repeat only_pg_hba_step. Qed.

Lemma main_step4_only_pg_hba h : keeps (only_pg_hba h) (main_step4 h).
Proof.
  unfold main_step4.
  apply keeps_bind; [apply only_pg_hba_trans | only_pg_hba_step | intros changed].
  destruct changed; simpl; [apply main_step5_only_pg_hba |].
  repeat only_pg_hba_step.
Qed.

Lemma main_step3_only_pg_hba h : keeps (only_pg_hba h) (main_step3 h).
Proof.
  unfold main_step3.
  apply keeps_bind; [apply only_pg_hba_trans | only_pg_hba_step | intros started].
  destruct started; simpl.
  - apply keeps_bind; [apply only_pg_hba_trans | only_pg_hba_step | intros _].
    apply keeps_bind; [apply only_pg_hba_trans | only_pg_hba_step | intros _].
    apply main_step4_only_pg_hba.
  - repeat only_pg_hba_step.
Qed.

(** ** Inverting a run *)

Lemma bind_inv {A B : Type} (m : M A) (k : A -> M B) s (b : B) sf :
  bind m k s = (Val b, sf) ->
  exists a s1, m s = (Val a, s1) /\ k a s1 = (Val b, sf).
Proof.
  unfold bind. destruct (m s) as [[a|e] s1]; [| discriminate].
  intros E. now exists a, s1.
Qed.

Lemma enters_relaxing_files h s0 s : enters h s0 Relaxing s -> files s = files s0.
Proof.
  inversion 1 as [s1 E | | | | | |]; subst.
  pose proof (main_step1_same_files h s0) as K. unfold exec in K.
  rewrite E in K. exact K.
Qed.

Lemma exec_print_files line s : files (exec (print line) s) = files s.
Proof. reflexivity. Qed.

(** The body of [reset_postgres_auth] once the policy file is found. *)
Lemma reset_postgres_auth_found h s d :
  find_postgres_data_dir h s = (Val (Some d), s) ->
  path_exists h s (pg_hba_of h d) = true ->
  reset_postgres_auth h s =
    (saved <- backup_pg_hba h (pg_hba_of h d);;
     if negb saved then ret false else write_trust h (pg_hba_of h d))
      (exec (print ("🔄 Backing up and modifying " +:+ pg_hba_of h d)) s).
Proof.
  intros Hd He. unfold reset_postgres_auth.
  rewrite (bind_val _ _ _ _ _ Hd).
  unfold bind at 1, os_path_exists. rewrite He. reflexivity.
Qed.

Lemma reset_postgres_auth_val h s s' d :
  find_postgres_data_dir h s = (Val (Some d), s) ->
  reset_postgres_auth h s = (Val true, s') ->
  files s' !! pg_hba_of h d = Some trust_config /\
  exists data,
    files s !! pg_hba_of h d = Some data /\
    files s' !! backup_of (pg_hba_of h d) = Some data.
Proof.
  intros Hd. unfold reset_postgres_auth.
  rewrite (bind_val _ _ _ _ _ Hd).
  unfold bind at 1, os_path_exists.
  destruct (path_exists h s (pg_hba_of h d)); simpl;
    [| unfold bind, print, emit, ret; simpl; discriminate].
  intros E. apply bind_inv in E. destruct E as ([] & s1 & Hp & E).
  apply bind_inv in E. destruct E as (saved & s2 & Hb & E).
  destruct saved; simpl in E; [| discriminate].
  split; [now apply write_trust_val in E |].
  apply backup_pg_hba_val in Hb. destruct Hb as (data & Hsrc & Hdst).
  unfold print, emit in Hp. inversion Hp; subst s1; clear Hp. simpl in Hsrc.
  exists data. split; [exact Hsrc |].
  pose proof (write_trust_only h (pg_hba_of h d) s2 (backup_of (pg_hba_of h d))
                (backup_of_neq _)) as K.
  unfold exec in K. rewrite E in K. simpl in K. now rewrite K.
Qed.

(** Builds the derivation that a run on a concrete host enters a phase. *)
Ltac run_step := apply run_val; vm_compute; reflexivity.

Ltac run_to_phase :=
  lazymatch goal with
  | |- enters _ _ Relaxing _ =>
      eapply enters_relaxing; run_step
  | |- enters _ _ StartingRelaxed _ =>
      eapply enters_starting_relaxed; [run_to_phase | run_step]
  | |- enters _ _ ChangingCredential _ =>
      eapply enters_changing_credential; [run_to_phase | run_step]
  | |- enters _ _ StoppingForSecure _ =>
      eapply enters_stopping_for_secure; [run_to_phase | run_step]
  | |- enters _ _ Securing _ =>
      eapply enters_securing; [run_to_phase | run_step]
  | |- enters _ _ StartingSecure _ =>
      eapply enters_starting_secure; [run_to_phase | run_step]
  | |- enters _ _ Verifying _ =>
      eapply enters_verifying; [run_to_phase | run_step]
  end.

(** ** The claims *)

(** C2, no premature mutation.  In every run in which the backup copy
    cannot be made, [main] returns [False] in the state the backup step
    ended in, with one more line printed and nothing else done: no restore,
    no stop, no start.  The policy file holds what it held when the script
    was started, and so does every file other than the backup itself. *)
Theorem backup_failure_leaves_policy h s0 s1 d sb :
  enters h s0 Relaxing s1 ->
  find_postgres_data_dir h s1 = (Val (Some d), s1) ->
  path_exists h s1 (pg_hba_of h d) = true ->
  backup_pg_hba h (pg_hba_of h d)
    (exec (print ("🔄 Backing up and modifying " +:+ pg_hba_of h d)) s1)
    = (Val false, sb) ->
  let sf := exec (print "❌ Failed to reset authentication. Exiting.") sb in
  main h s0 = (Val false, sf) /\
  log sf = log sb ++ [EvPrint "❌ Failed to reset authentication. Exiting."] /\
  files sf !! pg_hba_of h d = files s0 !! pg_hba_of h d /\
  (forall p, p <> backup_of (pg_hba_of h d) -> files sf !! p = files s0 !! p).
Proof.
  intros He Hd Hx Hb sf.
  set (s1' := exec (print ("🔄 Backing up and modifying " +:+ pg_hba_of h d)) s1) in *.
  assert (Hothers : forall p, p <> backup_of (pg_hba_of h d) ->
                              files sf !! p = files s0 !! p).
  { intros p Hp. subst sf. rewrite exec_print_files.
    pose proof (backup_pg_hba_only h (pg_hba_of h d) s1' p Hp) as K.
    unfold exec in K at 1. rewrite Hb in K. simpl in K.
    rewrite K. subst s1'. rewrite ?exec_print_files.
    now rewrite <- (enters_relaxing_files _ _ _ He). }
  split; [| split; [reflexivity | split; [| exact Hothers]]].
  - rewrite (main_enters _ _ _ _ He). unfold continue, main_step2.
    unfold bind at 1. rewrite (reset_postgres_auth_found _ _ _ Hd Hx).
    subst s1'. unfold bind at 1. rewrite Hb. reflexivity.
  - apply Hothers. intros C. symmetry in C. now apply backup_of_neq in C.
Qed.

Lemma backup_failure_leaves_policy_witness :
  fst (main (opens_fail_from 2) (init linux_files)) = Val false /\
  files (exec (main (opens_fail_from 2)) (init linux_files)) !! linux_pg_hba
    = Some original_policy.
Proof.
  set (h := opens_fail_from 2).
  set (pg := pg_hba_of h "/var/lib/postgresql/data").
  destruct (backup_failure_leaves_policy h (init linux_files)
              (exec (main_step1 h) (init linux_files))
              "/var/lib/postgresql/data"
              (exec (backup_pg_hba h pg)
                 (exec (print ("🔄 Backing up and modifying " +:+ pg))
                    (exec (main_step1 h) (init linux_files)))))
    as (Hm & _ & Hf & _).
  - apply enters_relaxing_total.
  - vm_compute. reflexivity.
  - vm_compute. reflexivity.
  - run_step.
  - unfold exec at 1. rewrite Hm. split; [reflexivity |].
    cbn [snd]. change linux_pg_hba with pg. fold pg in Hf.
    rewrite Hf. vm_compute. reflexivity.
Defined.

(** C10, backup persistence.  In every run in which the backup copy was
    made, [main] ends, whichever way, with the backup file still holding
    what the policy file held when the script was started. *)
Theorem backup_persists h s0 s1 d sb :
  enters h s0 Relaxing s1 ->
  find_postgres_data_dir h s1 = (Val (Some d), s1) ->
  path_exists h s1 (pg_hba_of h d) = true ->
  backup_pg_hba h (pg_hba_of h d)
    (exec (print ("🔄 Backing up and modifying " +:+ pg_hba_of h d)) s1)
    = (Val true, sb) ->
  exists b sf data,
    main h s0 = (Val b, sf) /\
    files s0 !! pg_hba_of h d = Some data /\
    files sf !! backup_of (pg_hba_of h d) = Some data.
Proof.
  intros He Hd Hx Hb.
  destruct (backup_pg_hba_val _ _ _ _ Hb) as (data & Hsrc & Hdst).
  rewrite exec_print_files, (enters_relaxing_files _ _ _ He) in Hsrc.
  destruct (total_run _ sb (total_write_trust h (pg_hba_of h d))) as [w Hw].
  pose proof (write_trust_only h (pg_hba_of h d) sb (backup_of (pg_hba_of h d))
                (backup_of_neq _)) as Kw.
  set (s2 := exec (write_trust h (pg_hba_of h d)) sb) in *.
  assert (Hm : main h s0 =
               (if negb w then print "❌ Failed to reset authentication. Exiting.";;; ret false
                else main_step3 h) s2).
  { rewrite (main_enters _ _ _ _ He). unfold continue, main_step2.
    unfold bind at 1. rewrite (reset_postgres_auth_found _ _ _ Hd Hx).
    unfold bind at 1. rewrite Hb. cbn [negb]. rewrite Hw. reflexivity. }
  destruct w; simpl in Hm.
  - destruct (total_run _ s2 (total_main_step3 h)) as [b Hrun].
    exists b, (exec (main_step3 h) s2), data.
    split; [now rewrite Hm | split; [exact Hsrc |]].
    rewrite (main_step3_only_pg_hba h s2 (backup_of (pg_hba_of h d)));
      [now rewrite Kw |].
    intros d' C. symmetry in C. now apply pg_hba_not_backup in C.
  - exists false, (exec (print "❌ Failed to reset authentication. Exiting.") s2), data.
    split; [exact Hm | split; [exact Hsrc |]].
    rewrite exec_print_files. now rewrite Kw.
Qed.

Lemma backup_persists_witness :
  exists b sf,
    main linux_host (init linux_files) = (Val b, sf) /\
    files sf !! backup_of linux_pg_hba = Some original_policy.
Proof.
  destruct (backup_persists linux_host (init linux_files)
              (exec (main_step1 linux_host) (init linux_files))
              "/var/lib/postgresql/data"
              (exec (backup_pg_hba linux_host linux_pg_hba)
                 (exec (print ("🔄 Backing up and modifying " +:+ linux_pg_hba))
                    (exec (main_step1 linux_host) (init linux_files)))))
    as (b & sf & data & Hm & Hsrc & Hdst).
  - apply enters_relaxing_total.
  - vm_compute. reflexivity.
  - vm_compute. reflexivity.
  - run_step.
  - exists b, sf. split; [exact Hm |].
    assert (E : data = original_policy).
    { assert (Some data = Some original_policy) as X; [| now inversion X].
      rewrite <- Hsrc. vm_compute. reflexivity. }
    rewrite <- E. exact Hdst.
Defined.

Lemma templates_differ : trust_config <> secure_config.
Proof. intros E. apply (f_equal String.length) in E. vm_compute in E. discriminate. Qed.

(** C3 as stated fails: when the secure policy cannot be written (here the
    file cannot be opened any more at the seventeenth external call), the
    run goes on and ends with the trust template on disk. *)
Lemma secure_write_failure_leaves_trust :
  let h := opens_fail_from 17 in
  let s0 := init linux_files in
  exists s s',
    enters h s0 Securing s /\
    create_secure_pg_hba h s = (Val false, s') /\
    files (exec (main h) s0) !! linux_pg_hba = Some trust_config /\
    files (exec (main h) s0) !! linux_pg_hba <> Some secure_config.
Proof.
  intros h s0. eexists. eexists.
  split; [run_to_phase |].
  split; [run_step |].
  assert (E : files (exec (main h) s0) !! linux_pg_hba = Some trust_config)
    by (vm_compute; reflexivity).
  split; [exact E |].
  rewrite E. intros C. apply templates_differ. congruence.
Qed.

(** C3, as amended.  In every run that reaches the secure write, if that
    write succeeds then [main] ends, whatever the start of the service and
    the verification do afterwards, with the secure template in the policy
    file, and not the trust template. *)
Theorem secure_write_is_final h s0 s s' d :
  enters h s0 Securing s ->
  find_postgres_data_dir h s = (Val (Some d), s) ->
  create_secure_pg_hba h s = (Val true, s') ->
  exists b sf,
    main h s0 = (Val b, sf) /\
    files sf !! pg_hba_of h d = Some secure_config /\
    files sf !! pg_hba_of h d <> Some trust_config.
Proof.
  intros He Hd Hw.
  pose proof (create_secure_pg_hba_val _ _ _ _ Hd Hw) as Hsec.
  pose proof (enters_starting_secure _ _ _ _ _ He Hw) as He'.
  destruct (total_run _ s' (total_continue h StartingSecure)) as [b Hrun].
  exists b, (exec (continue h StartingSecure) s').
  rewrite (main_enters _ _ _ _ He').
  assert (Hf : files (exec (continue h StartingSecure) s') !! pg_hba_of h d
               = Some secure_config).
  { now rewrite (continue_starting_secure_same_files h s'). }
  split; [exact Hrun | split; [exact Hf |]].
  rewrite Hf. intros C. apply templates_differ. congruence.
Qed.

Lemma secure_write_is_final_witness :
  exists b sf,
    main linux_host (init linux_files) = (Val b, sf) /\
    files sf !! linux_pg_hba = Some secure_config.
Proof.
  destruct (secure_write_is_final linux_host (init linux_files)
              linux_securing_state
              (exec (create_secure_pg_hba linux_host) linux_securing_state)
              "/var/lib/postgresql/data")
    as (b & sf & Hm & Hf & _).
  - unfold linux_securing_state. run_to_phase.
  - vm_compute. reflexivity.
  - run_step.
  - exists b, sf. split; [exact Hm | exact Hf].
Defined.

(** A start that fails after the trust policy was written ends the run on
    the spot: one more line is printed and [main] returns [False]. *)
Lemma main_start_failure h s0 s s' :
  enters h s0 StartingRelaxed s ->
  start_postgres h s = (Val false, s') ->
  main h s0 = (Val false, exec (print "❌ Failed to start PostgreSQL. Exiting.") s').
Proof.
  intros He Hs. rewrite (main_enters _ _ _ _ He). unfold continue, main_step3.
  now rewrite (bind_val _ _ _ _ _ Hs).
Qed.

(** No event of a concrete trace is the given one. *)
Lemma not_in_trace_dec (e : Event) (l : list Event) :
  bool_decide (e ∈ l) = false -> ~ In e l.
Proof.
  intros Hb Hin. apply bool_decide_eq_false in Hb.
  apply Hb, list_elem_of_In, Hin.
Qed.

Ltac not_in_trace := apply not_in_trace_dec; vm_compute; reflexivity.

(** C1, rollback safety, on a host whose service does not start again: the
    stop (call 0) works, the backup and the trust policy are written, and
    the start (call 7) fails.  [main] returns [False] at once; the backup is
    never opened for reading, and the policy file is left holding the trust
    template, not what the backup captured. *)
Theorem start_failure_skips_rollback :
  let h := commands_fail_from 7 in
  let s0 := init linux_files in
  exists s s',
    enters h s0 StartingRelaxed s /\
    start_postgres h s = (Val false, s') /\
    main h s0 = (Val false, exec (print "❌ Failed to start PostgreSQL. Exiting.") s') /\
    files s0 !! linux_pg_hba = Some original_policy /\
    files (exec (main h) s0) !! backup_of linux_pg_hba = Some original_policy /\
    files (exec (main h) s0) !! linux_pg_hba = Some trust_config /\
    ~ In (EvOpen (backup_of linux_pg_hba) ModeR) (log (exec (main h) s0)).
Proof.
  intros h s0. eexists. eexists.
  split; [run_to_phase |].
  split; [run_step |].
  split; [vm_compute; reflexivity |].
  split; [vm_compute; reflexivity |].
  split; [vm_compute; reflexivity |].
  split; [vm_compute; reflexivity |].
  not_in_trace.
Qed.

(** C4, failure reporting, on two hosts.  On the first the secure policy
    cannot be written (the file cannot be opened at call 17); on the second
    the service does not start after securing (call 19).  The results of
    both calls are dropped, the verification passes, and the process exits
    with status 0. *)
Theorem late_failures_exit_zero :
  let s0 := init linux_files in
  (exists s s',
      enters (opens_fail_from 17) s0 Securing s /\
      create_secure_pg_hba (opens_fail_from 17) s = (Val false, s') /\
      fst (main (opens_fail_from 17) s0) = Val true /\
      fst (script (opens_fail_from 17) s0) = 0%Z) /\
  (exists s s',
      enters (commands_fail_from 19) s0 StartingSecure s /\
      start_postgres (commands_fail_from 19) s = (Val false, s') /\
      fst (main (commands_fail_from 19) s0) = Val true /\
      fst (script (commands_fail_from 19) s0) = 0%Z).
Proof.
  intros s0. split; eexists; eexists.
  - split; [run_to_phase |].
    split; [run_step |].
    split; vm_compute; reflexivity.
  - split; [run_to_phase |].
    split; [run_step |].
    split; vm_compute; reflexivity.
Qed.

(** C9, connection scoping, on two hosts.  On the first the identity query
    of the verification raises, on the second the credential change
    raises.  Each step ends in its handler and returns [False] with the
    connection it opened (the calls 20 and 8) still open: [close] is only
    reached at the end of the [try] body. *)
Theorem failed_step_leaves_connection_open :
  let s0 := init linux_files in
  (exists s s',
      enters (database_fails is_version_query) s0 Verifying s /\
      test_connection (database_fails is_version_query) s = (Val false, s') /\
      open_conns s = [] /\
      open_conns s' = [20] /\
      ~ In (EvDb (ConnClose 20)) (log s')) /\
  (exists s s',
      enters (database_fails is_alter_user) s0 ChangingCredential s /\
      reset_postgres_password (database_fails is_alter_user) s = (Val false, s') /\
      open_conns s = [] /\
      open_conns s' = [8] /\
      ~ In (EvDb (ConnClose 8)) (log s')).
Proof.
  intros s0. split; eexists; eexists.
  - split; [run_to_phase |].
    split; [run_step |].
    split; [vm_compute; reflexivity |].
    split; [vm_compute; reflexivity |].
    not_in_trace.
  - split; [run_to_phase |].
    split; [run_step |].
    split; [vm_compute; reflexivity |].
    split; [vm_compute; reflexivity |].
    not_in_trace.
Qed.

(** C7, stop and start.  Neither [stop_postgres] nor [start_postgres]
    ever raises: each returns a flag.  When the first stop returns [False]
    the run prints its warning and goes on to step 2.  When the start that
    follows the writing of the trust policy returns [False], [main] returns
    [False] in the state the start ended in, with one more line printed:
    no database call is made. *)
Theorem stop_start_failure_semantics h :
  total (stop_postgres h) /\
  total (start_postgres h) /\
  (forall s0 s1,
      stop_postgres h (exec banner s0) = (Val false, s1) ->
      enters h s0 Relaxing (exec (print "⚠️  Continuing anyway...") s1) /\
      main h s0 = main_step2 h (exec (print "⚠️  Continuing anyway...") s1)) /\
  (forall s0 s s',
      enters h s0 StartingRelaxed s ->
      start_postgres h s = (Val false, s') ->
      let sf := exec (print "❌ Failed to start PostgreSQL. Exiting.") s' in
      main h s0 = (Val false, sf) /\
      log sf = log s' ++ [EvPrint "❌ Failed to start PostgreSQL. Exiting."] /\
      open_conns sf = open_conns s').
Proof.
  split; [apply total_stop_postgres |].
  split; [apply total_start_postgres |].
  split.
  - intros s0 s1 Hs.
    assert (He : enters h s0 Relaxing (exec (print "⚠️  Continuing anyway...") s1)).
    { apply enters_relaxing. unfold main_step1.
      unfold bind at 1. rewrite (run_eq banner s0). cbn [fst].
      change (banner s0).1 with (@Val unit tt). cbv iota.
      unfold bind at 1. rewrite Hs. reflexivity. }
    split; [exact He | exact (main_enters _ _ _ _ He)].
  - intros s0 s s' He Hs sf.
    split; [exact (main_start_failure _ _ _ _ He Hs) | split; reflexivity].
Qed.

Lemma stop_start_failure_semantics_witness :
  (exists s, main (commands_fail_from 0) (init linux_files)
             = main_step2 (commands_fail_from 0) s) /\
  fst (main (commands_fail_from 7) (init linux_files)) = Val false.
Proof.
  split.
  - eexists.
    apply (proj1 (proj2 (proj2 (stop_start_failure_semantics (commands_fail_from 0))))
             (init linux_files)
             (exec (stop_postgres (commands_fail_from 0)) (exec banner (init linux_files)))).
    run_step.
  - set (h := commands_fail_from 7).
    set (s := exec (reset_postgres_auth h) (exec (main_step1 h) (init linux_files))).
    destruct (proj2 (proj2 (proj2 (stop_start_failure_semantics h)))
                (init linux_files) s (exec (start_postgres h) s)) as (Hm & _).
    + subst s. run_to_phase.
    + run_step.
    + rewrite Hm. reflexivity.
Defined.

(** ** The success gate *)

Lemma test_connection_true h s s' :
  test_connection h s = (Val true, s') ->
  db_fault h (clock s) (Connect "localhost" "postgres" "postgres" (Some "1")) = None /\
  db_fault h (2 + clock s) (Execute "SELECT version();") = None /\
  exists version rest, db_row h (3 + clock s) = Some (version :: rest).
Proof.
  unfold test_connection, try_except, connect, fetchone, first_column,
    conn_close, db_call, bind, call, print, emit, ret, raise. simpl.
  destruct (db_fault h (clock s) _) eqn:E1; simpl; [discriminate |].
  destruct (db_fault h (S (clock s)) _) eqn:E2; simpl; [discriminate |].
  destruct (db_fault h (S (S (clock s))) _) eqn:E3; simpl; [discriminate |].
  destruct (db_fault h (S (S (S (clock s)))) _) eqn:E4; simpl; [discriminate |].
  destruct (db_row h (S (S (S (clock s))))) as [[|version rest]|] eqn:E5; simpl;
    try discriminate.
  intros _. split; [reflexivity | split; [reflexivity |]].
  now exists version, rest.
Qed.

(** A computation that ends in [return False] does not return [True]. *)
Ltac returns_false H :=
  repeat (apply bind_inv in H; destruct H as (? & ? & _ & H));
  unfold ret in H; discriminate H.

Lemma main_true_verified h s0 sf :
  main h s0 = (Val true, sf) ->
  exists s s', enters h s0 Verifying s /\ test_connection h s = (Val true, s').
Proof.
  intros H.
  pose proof (enters_relaxing_total h s0) as He1.
  rewrite (main_enters _ _ _ _ He1) in H. unfold continue, main_step2 in H.
  apply bind_inv in H. destruct H as (relaxed & s2 & H2 & H).
  destruct relaxed; cbn [negb] in H; [| returns_false H].
  pose proof (enters_starting_relaxed _ _ _ _ He1 H2) as He2.
  unfold main_step3 in H.
  apply bind_inv in H. destruct H as (started & s3 & H3 & H).
  destruct started; cbn [negb] in H; [| returns_false H].
  pose proof (enters_changing_credential _ _ _ _ He2 H3) as He3.
  change (main_step4 h (exec (print "⏳ Waiting for PostgreSQL to start...";;; sleep 3) s3)
          = (Val true, sf)) in H.
  unfold main_step4 in H.
  apply bind_inv in H. destruct H as (changed & s4 & H4 & H).
  destruct changed; cbn [negb] in H; [| returns_false H].
  pose proof (enters_stopping_for_secure _ _ _ _ He3 H4) as He4.
  unfold main_step5 in H.
  apply bind_inv in H. destruct H as (b5 & s5 & H5 & H).
  pose proof (enters_securing _ _ _ _ _ He4 H5) as He5.
  apply bind_inv in H. destruct H as (b6 & s6 & H6 & H).
  pose proof (enters_starting_secure _ _ _ _ _ He5 H6) as He6.
  apply bind_inv in H. destruct H as (b7 & s7 & H7 & H).
  pose proof (enters_verifying _ _ _ _ _ He6 H7) as He7.
  change (main_step6 h (exec (sleep 3) s7) = (Val true, sf)) in H.
  unfold main_step6 in H.
  apply bind_inv in H. destruct H as (verified & s8 & H8 & H).
  destruct verified; [| returns_false H].
  now exists (exec (sleep 3) s7), s8.
Qed.

(** C5, the success gate.  The process exits with status 0 only when the
    run reached the verification and [test_connection] returned [True]
    there: the connection as postgres with the password 1 was accepted, the
    identity query was executed and a row came back whose first column is
    the version.  And every run whose verification returns [False] exits
    with status 1. *)
Theorem success_gate h s0 :
  (forall sf,
      script h s0 = (0%Z, sf) ->
      exists s s' version rest,
        enters h s0 Verifying s /\
        test_connection h s = (Val true, s') /\
        db_fault h (clock s)
          (Connect "localhost" "postgres" "postgres" (Some "1")) = None /\
        db_fault h (2 + clock s) (Execute "SELECT version();") = None /\
        db_row h (3 + clock s) = Some (version :: rest)) /\
  (forall s s',
      enters h s0 Verifying s ->
      test_connection h s = (Val false, s') ->
      fst (script h s0) = 1%Z).
Proof.
  split.
  - intros sf H. unfold script in H.
    destruct (has_psycopg2 h); [| discriminate].
    destruct (main h s0) as [[[]|e] sm] eqn:Hm; try discriminate.
    destruct (main_true_verified _ _ _ Hm) as (s & s' & He & Ht).
    destruct (test_connection_true _ _ _ Ht) as (Hc & Hq & version & rest & Hr).
    now exists s, s', version, rest.
  - intros s s' He Ht. unfold script.
    destruct (has_psycopg2 h); [| reflexivity].
    rewrite (main_enters _ _ _ _ He). unfold continue, main_step6.
    rewrite (bind_val _ _ _ _ _ Ht). reflexivity.
Qed.

Lemma success_gate_witness :
  (exists s s' version rest,
      enters linux_host (init linux_files) Verifying s /\
      test_connection linux_host s = (Val true, s') /\
      db_fault linux_host (clock s)
        (Connect "localhost" "postgres" "postgres" (Some "1")) = None /\
      db_fault linux_host (2 + clock s) (Execute "SELECT version();") = None /\
      db_row linux_host (3 + clock s) = Some (version :: rest)) /\
  fst (script (database_fails is_version_query) (init linux_files)) = 1%Z.
Proof.
  split.
  - apply (proj1 (success_gate linux_host (init linux_files))
             (snd (script linux_host (init linux_files)))).
    vm_compute. reflexivity.
  - set (h := database_fails is_version_query).
    eapply (proj2 (success_gate h (init linux_files))).
    + run_to_phase.
    + run_step.
Defined.

(** ** The templates *)

(** C6, format fidelity.  The trust template has three records, one local
    and one for each loopback address, all with method trust; the secure
    template has six, for postgres and for all on each of the three, all
    with method md5.  Whenever [reset_postgres_auth] returns [True] the
    policy file holds the trust template, and whenever
    [create_secure_pg_hba] returns [True] it holds the secure template,
    character for character, on every host and in every state. *)
Theorem format_fidelity :
  hba_records trust_config =
    [ ["local"; "all"; "all"; "trust"];
      ["host"; "all"; "all"; "127.0.0.1/32"; "trust"];
      ["host"; "all"; "all"; "::1/128"; "trust"] ] /\
  hba_records secure_config =
    [ ["local"; "all"; "postgres"; "md5"];
      ["local"; "all"; "all"; "md5"];
      ["host"; "all"; "postgres"; "127.0.0.1/32"; "md5"];
      ["host"; "all"; "all"; "127.0.0.1/32"; "md5"];
      ["host"; "all"; "postgres"; "::1/128"; "md5"];
      ["host"; "all"; "all"; "::1/128"; "md5"] ] /\
  (forall h s s' d,
      find_postgres_data_dir h s = (Val (Some d), s) ->
      reset_postgres_auth h s = (Val true, s') ->
      files s' !! pg_hba_of h d = Some trust_config) /\
  (forall h s s' d,
      find_postgres_data_dir h s = (Val (Some d), s) ->
      create_secure_pg_hba h s = (Val true, s') ->
      files s' !! pg_hba_of h d = Some secure_config).
Proof.
  split; [vm_compute; reflexivity |].
  split; [vm_compute; reflexivity |].
  split.
  - intros h s s' d Hd Hr. exact (proj1 (reset_postgres_auth_val _ _ _ _ Hd Hr)).
  - intros h s s' d Hd Hc. exact (create_secure_pg_hba_val _ _ _ _ Hd Hc).
Qed.

Lemma format_fidelity_witness :
  files (exec (reset_postgres_auth windows_host)
           (init {[ pg_hba_of windows_host "C:\Program Files\PostgreSQL\16\data"
                    := original_policy ]}))
    !! pg_hba_of windows_host "C:\Program Files\PostgreSQL\16\data"
    = Some trust_config /\
  files (exec (create_secure_pg_hba linux_host) linux_securing_state)
    !! pg_hba_of linux_host "/var/lib/postgresql/data"
    = Some secure_config.
Proof.
  split.
  - apply (proj1 (proj2 (proj2 format_fidelity)) windows_host
             (init {[ pg_hba_of windows_host "C:\Program Files\PostgreSQL\16\data"
                      := original_policy ]})).
    + vm_compute. reflexivity.
    + run_step.
  - apply (proj2 (proj2 (proj2 format_fidelity)) linux_host linux_securing_state).
    + vm_compute. reflexivity.
    + run_step.
Defined.

(** ** The locators *)

Lemma run_command_val h command s :
  exists out err,
    run_command h command s =
      (Val (match spawn h (clock s) command with
            | Val (returncode, _, _) => Z.eqb returncode 0
            | Raise _ => false
            end, out, err),
       {| files := files s; open_conns := open_conns s; clock := S (clock s);
          log := log s ++ [EvRun command] |}).
Proof.
  unfold run_command, try_except, subprocess_run, bind, call, ret, raise. simpl.
  destruct (spawn h (clock s) command) as [[[rc out] err]|e]; simpl.
  - now exists out, err.
  - now exists EmptyString, (str e).
Qed.

Lemma probe_services_first h services s :
  fst (probe_services h services s)
  = Val (first_probed (sc_query_ok h) (clock s) services).
Proof.
  revert s. induction services as [|service rest IH]; intros s; [reflexivity |].
  cbn [probe_services].
  destruct (run_command_val h ("sc query " +:+ dq +:+ service +:+ dq) s)
    as (out & err & E).
  rewrite (bind_val _ _ _ _ _ E).
  unfold first_probed. cbn [length seq combine List.find].
  fold (sc_query_ok h (clock s) service).
  destruct (sc_query_ok h (clock s) service); [reflexivity |].
  rewrite IH. reflexivity.
Qed.

Lemma probe_paths_first h paths s :
  probe_paths h paths s = (Val (List.find (path_exists h s) paths), s).
Proof.
  induction paths as [|path rest IH]; [reflexivity |].
  cbn [probe_paths List.find]. unfold bind at 1, os_path_exists.
  destruct (path_exists h s path); [reflexivity | exact IH].
Qed.

Lemma first_probed_none (ok : nat -> string -> bool) t candidates :
  (forall n c, ok n c = false) -> first_probed ok t candidates = None.
Proof.
  intros Hok. unfold first_probed. revert t.
  induction candidates as [|c rest IH]; intros t; [reflexivity |].
  cbn [length seq combine List.find]. rewrite Hok. apply IH.
Qed.

(** C8 as stated fails: on a Linux host on which every command fails, so
    that no probe of any candidate by any command can succeed, the service
    locator runs no command at all (the state is untouched) and answers
    postgresql, where the first match of the probes is [None]. *)
Lemma linux_service_is_assumed :
  let h := commands_fail_from 0 in
  (forall t command,
      spawn h t command = Val (1%Z, EmptyString, "Job for postgresql.service failed")) /\
  find_postgres_service h (init ∅) = (Val (Some "postgresql"), init ∅) /\
  (forall (probe : string -> string) (candidates : list string),
      fst (find_postgres_service h (init ∅)) <>
      Val (first_probed
             (fun t c =>
                match spawn h t (probe c) with
                | Val (returncode, _, _) => Z.eqb returncode 0
                | Raise _ => false
                end) 0 candidates)).
Proof.
  intros h. split; [intros t command; reflexivity |].
  split; [reflexivity |].
  intros probe candidates. rewrite first_probed_none; [discriminate |].
  intros n c. reflexivity.
Qed.

(** C8, as amended.  The data directory is, on every host, the first of
    the platform's candidate paths that exists, [None] when none does, and
    the lookup leaves the state alone.  On Windows the service is the first
    of the four candidate names whose [sc query] succeeds, probed in order,
    [None] when none does, and the lookup never raises.  On Linux and on
    macOS the service is postgresql, without a probe; on any other platform
    both lookups answer [None]. *)
Theorem locators_first_match h s :
  find_postgres_data_dir h s
    = (Val (List.find (path_exists h s) (common_paths h)), s) /\
  (system h = "windows" ->
   fst (find_postgres_service h s)
     = Val (first_probed (sc_query_ok h) (clock s) windows_services)) /\
  (system h = "linux" \/ system h = "darwin" ->
   find_postgres_service h s = (Val (Some "postgresql"), s)) /\
  (system h <> "windows" -> system h <> "linux" -> system h <> "darwin" ->
   find_postgres_service h s = (Val None, s) /\
   find_postgres_data_dir h s = (Val None, s)).
Proof.
  split; [apply probe_paths_first |].
  split; [| split].
  - intros Hw. unfold find_postgres_service. rewrite Hw.
    change (String.eqb "windows" "windows") with true. cbv iota.
    apply probe_services_first.
  - intros [Hl | Hd]; unfold find_postgres_service; rewrite ?Hl, ?Hd; reflexivity.
  - intros Hw Hl Hd.
    apply String.eqb_neq in Hw, Hl, Hd.
    unfold find_postgres_service, find_postgres_data_dir, common_paths.
    rewrite Hw, Hl, Hd. split; reflexivity.
Qed.

Lemma locators_first_match_witness :
  fst (find_postgres_service windows_host (init ∅)) = Val (Some "postgresql-x64-16") /\
  find_postgres_service linux_host (init ∅) = (Val (Some "postgresql"), init ∅) /\
  find_postgres_data_dir (database_fails (fun _ => false)) (init ∅)
    = (Val (Some "/var/lib/postgresql/data"), init ∅) /\
  find_postgres_data_dir freebsd_host (init ∅) = (Val None, init ∅).
Proof.
  split; [| split; [| split]]; cycle 3.
  - apply (proj2 (proj2 (proj2 (locators_first_match freebsd_host (init ∅)))));
      discriminate.
  - rewrite (proj1 (proj2 (locators_first_match windows_host (init ∅))));
      [vm_compute; reflexivity | reflexivity].
  - apply (proj1 (proj2 (proj2 (locators_first_match linux_host (init ∅))))).
    left. reflexivity.
  - rewrite (proj1 (locators_first_match (database_fails (fun _ => false)) (init ∅))).
    vm_compute. reflexivity.
Defined.

(** ** The rollback of step 4

    When the credential change fails the run stops the service, restores
    the policy file from the backup and starts the service; if the restore
    succeeds the policy file ends holding what the backup holds. *)
Lemma credential_failure_rolls_back h s0 s s1 b s2 d s3 :
  enters h s0 ChangingCredential s ->
  reset_postgres_password h s = (Val false, s1) ->
  stop_postgres h
    (exec (print "❌ Failed to reset password. Restoring original config...") s1)
    = (Val b, s2) ->
  find_postgres_data_dir h s2 = (Val (Some d), s2) ->
  restore_postgres_auth h s2 = (Val true, s3) ->
  exists sf data,
    main h s0 = (Val false, sf) /\
    files s2 !! backup_of (pg_hba_of h d) = Some data /\
    files sf !! backup_of (pg_hba_of h d) = Some data /\
    files sf !! pg_hba_of h d = Some data.
Proof.
  intros He Hp Hs Hd Hr.
  destruct (restore_postgres_auth_val _ _ _ _ Hd Hr) as (data & Hb & Hf).
  destruct (total_run _ s3 (total_start_postgres h)) as [b' Hs'].
  exists (exec (start_postgres h) s3), data.
  pose proof (start_postgres_same_files h s3) as K. unfold same_files in K.
  split; [| split; [exact Hb | split]].
  - rewrite (main_enters _ _ _ _ He). unfold continue, main_step4.
    rewrite (bind_val _ _ _ _ _ Hp). cbn [negb].
    unfold bind at 1. cbn [print emit].
    change {| files := files s1; open_conns := open_conns s1; clock := clock s1;
              log := log s1 ++ [EvPrint "❌ Failed to reset password. Restoring original config..."] |}
      with (exec (print "❌ Failed to reset password. Restoring original config...") s1).
    rewrite (bind_val _ _ _ _ _ Hs), (bind_val _ _ _ _ _ Hr), (bind_val _ _ _ _ _ Hs').
    reflexivity.
  - rewrite K.
    pose proof (restore_postgres_auth_only h s2 (backup_of (pg_hba_of h d))) as R.
    unfold exec in R. rewrite Hr in R. cbn [snd] in R.
    rewrite R; [exact Hb |].
    intros d' C. symmetry in C. now apply pg_hba_not_backup in C.
  - now rewrite K.
Qed.

(** * Further properties of the script *)

(** ** More frames *)







Lemma same_files_policy_files h s s' : same_files s s' -> only_policy_files h s s'.
Proof. intros E p _ _. now rewrite E. Qed.

Lemma no_file_lost_refl s : no_file_lost s s.
Proof. intros p Hp. exact Hp. Qed.

Lemma no_file_lost_trans s1 s2 s3 :
  no_file_lost s1 s2 -> no_file_lost s2 s3 -> no_file_lost s1 s3.
Proof. intros H1 H2 p Hp. now apply H2, H1. Qed.

Lemma no_file_lost_log s l c :
  no_file_lost s {| files := files s; open_conns := open_conns s; clock := c; log := l |}.
Proof. intros p Hp. exact Hp. Qed.

Lemma no_file_lost_conns s cs : no_file_lost s (set_conns cs s).
Proof. intros p Hp. exact Hp. Qed.

Lemma same_files_no_file_lost s s' : same_files s s' -> no_file_lost s s'.
Proof. intros E p Hp. now rewrite E. Qed.

Lemma no_file_lost_insert s path data :
  no_file_lost s (set_files (<[path := data]> (files s)) s).
Proof.
  intros p Hp. simpl. destruct (decide (path = p)) as [->|Hne].
  - rewrite lookup_insert_eq. now eexists.
  - now rewrite lookup_insert_ne.
Qed.

Lemma keeps_open_no_file_lost h path mode : keeps no_file_lost (open_file h path mode).
Proof.
  intros s p Hp. unfold exec, open_file, bind, call, raise. simpl.
  destruct (open_fault h (clock s) path mode); simpl; [exact Hp |].
  destruct mode; simpl.
  - destruct (files s !! path); simpl; exact Hp.
  - destruct (decide (path = p)) as [->|Hne].
    + rewrite lookup_insert_eq. now eexists.
    + now rewrite lookup_insert_ne.
Qed.

Lemma keeps_write_no_file_lost h path data : keeps no_file_lost (file_write h path data).
Proof.
  intros s p Hp. unfold exec, file_write, bind, call. simpl.
  destruct (write_fault h (clock s) path) as [[n msg]|]; simpl;
    (destruct (decide (path = p)) as [->|Hne];
      [rewrite lookup_insert_eq; now eexists | now rewrite lookup_insert_ne]).
Qed.

(** One step of a frame proof, for a relation given with its four laws;
    [leaf] closes what is particular to the relation. *)
Ltac keeps_step refl trans lg cn leaf :=
  match goal with
  | |- keeps _ (bind _ _) => apply keeps_bind; [exact trans | | intros ?]
  | |- keeps _ (try_except _ _) => apply keeps_try_except; [exact trans | | intros ?]
  | |- keeps _ (ret _) => apply keeps_ret; exact refl
  | |- keeps _ (raise _) => apply keeps_raise; exact refl
  | |- keeps _ (print _) => apply keeps_print; exact lg
  | |- keeps _ (sleep _) => apply keeps_sleep; exact lg
  | |- keeps _ (os_path_exists _ _) => apply keeps_os_path_exists; exact refl
  | |- keeps _ (find_postgres_data_dir _) =>
      apply keeps_find_postgres_data_dir; first [exact refl | exact trans]
  | |- keeps _ (stop_postgres _) =>
      apply keeps_stop_postgres; first [exact refl | exact trans | exact lg]
  | |- keeps _ (start_postgres _) =>
      apply keeps_start_postgres; first [exact refl | exact trans | exact lg]
  | |- keeps _ (open_file _ _ ModeR) => apply keeps_open_read; exact lg
  | |- keeps _ (file_read _ _) => apply keeps_file_read; exact lg
  | |- keeps _ (if ?b then _ else _) => destruct b
  | |- keeps _ (match ?x with _ => _ end) => destruct x
  | |- keeps _ _ => leaf
  end.




Lemma main_no_file_lost h : keeps no_file_lost (main h).
Proof.
  unfold main, main_step1, banner, main_step2, main_step3, main_step4, main_step5,
    reset_postgres_auth, backup_pg_hba, write_trust, restore_postgres_auth,
    create_secure_pg_hba, copy_text, write_text.
  cbv zeta.
  repeat keeps_step no_file_lost_refl no_file_lost_trans no_file_lost_log
    no_file_lost_conns
    ltac:(idtac; first
      [ apply keeps_open_no_file_lost
      | apply keeps_write_no_file_lost
      | eapply keeps_weaken;
          [apply same_files_no_file_lost
          | first [ apply reset_postgres_password_same_files
                  | apply main_step6_same_files ] ] ]).
Qed.

(** ** The data directory does not move *)

(** No candidate directory is a policy file or a backup of one. *)
Lemma common_paths_not_policy h p :
  In p (common_paths h) ->
  (forall d, p <> pg_hba_of h d) /\ (forall d, p <> backup_of (pg_hba_of h d)).
Proof.
  unfold common_paths, backup_of, pg_hba_of, os_path_join.
  assert (Hlast : forall c d sep,
             (last_char (d +:+ String sep "pg_hba.conf") c = "f"%char) /\
             (last_char ((d +:+ String sep "pg_hba.conf") +:+ ".backup") c = "p"%char)).
  { intros c d sep. split.
    - now rewrite last_char_append.
    - rewrite append_assoc. change (String sep "pg_hba.conf" +:+ ".backup")
        with (String sep "pg_hba.conf.backup").
      now rewrite last_char_append. }
  assert (Hne : forall q sep, last_char q "x" <> "f"%char -> last_char q "x" <> "p"%char ->
             (forall d, q <> d +:+ String sep "pg_hba.conf") /\
             (forall d, q <> (d +:+ String sep "pg_hba.conf") +:+ ".backup")).
  { intros q sep Hf Hp. split; intros d E;
      apply (f_equal (fun s => last_char s "x"%char)) in E;
      destruct (Hlast "x"%char d sep) as [E1 E2]; congruence. }
  destruct (String.eqb (system h) "windows").
  { intros Hin. apply (Hne p "\"%char);
      simpl in Hin; intuition (subst; simpl; discriminate). }
  destruct (String.eqb (system h) "linux").
  { intros Hin. apply (Hne p "/"%char);
      simpl in Hin; intuition (subst; simpl; discriminate). }
  destruct (String.eqb (system h) "darwin").
  { intros Hin. apply (Hne p "/"%char);
      simpl in Hin; intuition (subst; simpl; discriminate). }
  intros [].
Qed.

Lemma find_ext_in {A : Type} (f g : A -> bool) (l : list A) :
  (forall x, In x l -> f x = g x) -> List.find f l = List.find g l.
Proof.
  induction l as [|x l IH]; intros H; [reflexivity |].
  simpl. rewrite (H x (or_introl eq_refl)).
  destruct (g x); [reflexivity |]. apply IH. intros y Hy. apply H. now right.
Qed.

Lemma data_dir_stable_step h r s s' :
  only_policy_files h s s' -> data_dir_is h r s -> data_dir_is h r s'.
Proof.
  unfold data_dir_is. intros H <-. apply find_ext_in.
  intros p Hp. destruct (common_paths_not_policy h p Hp) as [H1 H2].
  unfold path_exists. now rewrite (H p H1 H2).
Qed.

Lemma exec_of_run {A : Type} (m : M A) s (a : Res A) s' : m s = (a, s') -> exec m s = s'.
Proof. intros E. unfold exec. now rewrite E. Qed.




(** ** What the script writes *)

Lemma keeps_from_bind {A B : Type} (I : State -> Prop) (P : State -> State -> Prop)
    (m : M A) (k : A -> M B) :
  (forall s1 s2 s3, P s1 s2 -> P s2 s3 -> P s1 s3) ->
  keeps_from I P m -> (forall a, keeps_from I P (k a)) -> keeps_from I P (bind m k).
Proof.
  intros Ht Hm Hk s Hs. destruct (Hm s Hs) as [I1 P1].
  unfold exec, bind in *. destruct (m s) as [[a|e] s1]; simpl in *; [| now split].
  destruct (Hk a s1 I1) as [I2 P2]. split; [exact I2 | exact (Ht _ _ _ P1 P2)].
Qed.

Lemma keeps_from_keeps {A : Type} (I : State -> Prop) (P : State -> State -> Prop)
    (m : M A) :
  (forall s s', P s s' -> I s -> I s') -> keeps P m -> keeps_from I P m.
Proof. intros HI Hm s Hs. split; [exact (HI _ _ (Hm s) Hs) | apply Hm]. Qed.

Section OneDataDir.

Variable h : Host.
Variable r : option string.

Lemma only_two_refl s : only_two h r s s.
Proof. intros p _. reflexivity. Qed.

Lemma only_two_trans s1 s2 s3 :
  only_two h r s1 s2 -> only_two h r s2 s3 -> only_two h r s1 s3.
Proof. intros H1 H2 p Hp. rewrite (H2 p Hp). now apply H1. Qed.

Lemma only_two_log s l c :
  only_two h r s {| files := files s; open_conns := open_conns s; clock := c; log := l |}.
Proof. intros p _. reflexivity. Qed.

Lemma only_two_conns s cs : only_two h r s (set_conns cs s).
Proof. intros p _. reflexivity. Qed.

Lemma same_files_only_two s s' : same_files s s' -> only_two h r s s'.
Proof. intros E p _. now rewrite E. Qed.

Lemma only_two_policy_files s s' : only_two h r s s' -> only_policy_files h s s'.
Proof. intros H p H1 H2. apply H. intros d _. split; [apply H1 | apply H2]. Qed.

Lemma only_two_data_dir s s' :
  only_two h r s s' -> data_dir_is h r s -> data_dir_is h r s'.
Proof. intros H. apply data_dir_stable_step, only_two_policy_files, H. Qed.

Lemma keeps_from_data_dir {A : Type} (k : option string -> M A) :
  keeps (only_two h r) (k r) ->
  keeps_from (data_dir_is h r) (only_two h r) (bind (find_postgres_data_dir h) k).
Proof.
  intros Hk s Hs.
  assert (E : exec (bind (find_postgres_data_dir h) k) s = exec (k r) s).
  { unfold exec, bind, find_postgres_data_dir. rewrite probe_paths_first.
    unfold data_dir_is in Hs. now rewrite Hs. }
  rewrite E. split; [exact (only_two_data_dir _ _ (Hk s) Hs) | apply Hk].
Qed.

End OneDataDir.

Lemma only_path_pg_two h d s s' :
  only_path (pg_hba_of h d) s s' -> only_two h (Some d) s s'.
Proof. intros H p Hp. apply H. now destruct (Hp d eq_refl). Qed.

Lemma only_path_backup_two h d s s' :
  only_path (backup_of (pg_hba_of h d)) s s' -> only_two h (Some d) s s'.
Proof. intros H p Hp. apply H. now destruct (Hp d eq_refl). Qed.

(** The leaves of the three functions that write. *)
Ltac two_leaf :=
  idtac;
  first
    [ eapply keeps_weaken; [| apply backup_pg_hba_only];
      intros ? ?; apply only_path_backup_two
    | eapply keeps_weaken; [| apply write_trust_only];
      intros ? ?; apply only_path_pg_two
    | eapply keeps_weaken;
        [| first [apply keeps_write_text | apply keeps_copy_text]];
      intros ? ?; apply only_path_pg_two ].

Ltac two_steps h r :=
  repeat keeps_step (only_two_refl h r) (only_two_trans h r) (only_two_log h r)
    (only_two_conns h r) two_leaf.

Lemma reset_postgres_auth_two h r :
  keeps_from (data_dir_is h r) (only_two h r) (reset_postgres_auth h).
Proof.
  unfold reset_postgres_auth. apply keeps_from_data_dir.
  destruct r as [d|]; cbv zeta; [two_steps h (Some d) | two_steps h (@None string)].
Qed.

Lemma restore_postgres_auth_two h r :
  keeps_from (data_dir_is h r) (only_two h r) (restore_postgres_auth h).
Proof.
  unfold restore_postgres_auth. apply keeps_from_data_dir.
  destruct r as [d|]; cbv zeta; [two_steps h (Some d) | two_steps h (@None string)].
Qed.

Lemma create_secure_pg_hba_two h r :
  keeps_from (data_dir_is h r) (only_two h r) (create_secure_pg_hba h).
Proof.
  unfold create_secure_pg_hba. apply keeps_from_data_dir.
  destruct r as [d|]; cbv zeta; [two_steps h (Some d) | two_steps h (@None string)].
Qed.

Ltac from_step h r :=
  match goal with
  | |- keeps_from _ _ (bind _ _) =>
      apply keeps_from_bind; [exact (only_two_trans h r) | | intros ?]
  | |- keeps_from _ _ (reset_postgres_auth _) => apply reset_postgres_auth_two
  | |- keeps_from _ _ (restore_postgres_auth _) => apply restore_postgres_auth_two
  | |- keeps_from _ _ (create_secure_pg_hba _) => apply create_secure_pg_hba_two
  | |- keeps_from _ _ (if ?b then _ else _) => destruct b
  | |- keeps_from _ _ _ =>
      apply keeps_from_keeps; [exact (only_two_data_dir h r) |];
      apply (keeps_weaken same_files); [exact (same_files_only_two h r) |];
      first [ apply main_step1_same_files | apply main_step6_same_files
            | apply reset_postgres_password_same_files | same_files_step ]
  end.

Lemma main_two h r : keeps_from (data_dir_is h r) (only_two h r) (main h).
Proof.
  unfold main, main_step2, main_step3, main_step4, main_step5.
  repeat from_step h r.
Qed.

(** X2.  The only files the script ever writes are the policy file of the
    data directory found when it was started and the backup of that file;
    when no data directory is found it writes no file at all.  It never
    removes a file: whatever existed at the start exists at the end. *)
Theorem main_writes_only_policy_files h s0 r p :
  fst (find_postgres_data_dir h s0) = Val r ->
  (is_Some (files s0 !! p) -> is_Some (files (exec (main h) s0) !! p)) /\
  ((forall d, r = Some d -> p <> pg_hba_of h d /\ p <> backup_of (pg_hba_of h d)) ->
   files (exec (main h) s0) !! p = files s0 !! p).
Proof.
  intros Hr. split.
  - apply main_no_file_lost.
  - assert (Hs : data_dir_is h r s0).
    { unfold find_postgres_data_dir in Hr. rewrite probe_paths_first in Hr.
      cbn [fst] in Hr. unfold data_dir_is. congruence. }
    apply (proj2 (main_two h r s0 Hs)).
Qed.

Lemma main_writes_only_policy_files_witness :
  files (exec (main linux_host)
           (init (<["/etc/postgresql/postgresql.conf" := "port = 5432"]> linux_files)))
    !! "/etc/postgresql/postgresql.conf" = Some "port = 5432".
Proof.
  set (s0 := init (<["/etc/postgresql/postgresql.conf" := "port = 5432"]> linux_files)).
  rewrite (proj2 (main_writes_only_policy_files linux_host s0
                    (Some "/var/lib/postgresql/data")
                    "/etc/postgresql/postgresql.conf" eq_refl)).
  - reflexivity.
  - intros d E. inversion E; subst d. split; discriminate.
Defined.

(** ** The original policy survives *)

Lemma data_dir_run h r s :
  data_dir_is h r s -> find_postgres_data_dir h s = (Val r, s).
Proof.
  unfold data_dir_is, find_postgres_data_dir. intros <-. apply probe_paths_first.
Qed.

Lemma data_dir_of_fst h r s :
  fst (find_postgres_data_dir h s) = Val r -> data_dir_is h r s.
Proof.
  unfold find_postgres_data_dir. rewrite probe_paths_first. cbn [fst].
  unfold data_dir_is. congruence.
Qed.

Lemma data_dir_same_files h r s s' :
  files s' = files s -> data_dir_is h r s -> data_dir_is h r s'.
Proof. intros E. apply data_dir_stable_step, same_files_policy_files, E. Qed.

Lemma path_exists_file h s p data : files s !! p = Some data -> path_exists h s p = true.
Proof. intros E. unfold path_exists. rewrite E. apply orb_true_r. Qed.

(** X3.  The original policy is never lost.  If the policy file of the
    data directory exists when the script is started then, however the run
    goes and whatever fails, when [main] has ended the text the file held at
    the start is still on disk: in the policy file itself or in its
    backup. *)
Theorem original_policy_never_lost h s0 d data :
  fst (find_postgres_data_dir h s0) = Val (Some d) ->
  files s0 !! pg_hba_of h d = Some data ->
  files (exec (main h) s0) !! pg_hba_of h d = Some data \/
  files (exec (main h) s0) !! backup_of (pg_hba_of h d) = Some data.
Proof.
  intros Hd Hdata.
  pose proof (enters_relaxing_total h s0) as He.
  set (s1 := exec (main_step1 h) s0) in *.
  assert (Hf1 : files s1 = files s0) by exact (enters_relaxing_files _ _ _ He).
  assert (Hd1 : find_postgres_data_dir h s1 = (Val (Some d), s1)).
  { apply data_dir_run, (data_dir_same_files h _ s0); [exact Hf1 |].
    now apply data_dir_of_fst. }
  assert (Hx : path_exists h s1 (pg_hba_of h d) = true).
  { apply (path_exists_file _ _ _ data). now rewrite Hf1. }
  set (s1' := exec (print ("🔄 Backing up and modifying " +:+ pg_hba_of h d)) s1).
  destruct (total_run _ s1' (total_backup_pg_hba h (pg_hba_of h d))) as [saved Hb].
  set (sb := exec (backup_pg_hba h (pg_hba_of h d)) s1') in *.
  destruct (total_run _ sb (total_write_trust h (pg_hba_of h d))) as [w Hw].
  set (s2 := exec (write_trust h (pg_hba_of h d)) sb) in *.
  assert (Hm : main h s0 =
               (if saved
                then (if w then main_step3 h
                      else print "❌ Failed to reset authentication. Exiting.";;; ret false) s2
                else (print "❌ Failed to reset authentication. Exiting.";;; ret false) sb)).
  { rewrite (main_enters _ _ _ _ He). unfold continue, main_step2.
    unfold bind at 1. rewrite (reset_postgres_auth_found _ _ _ Hd1 Hx).
    unfold bind at 1. fold s1'. rewrite Hb.
    destruct saved; cbn [negb]; [| reflexivity].
    rewrite Hw. destruct w; reflexivity. }
  unfold exec at 1 2. rewrite Hm. clear Hm.
  destruct saved.
  - right.
    destruct (backup_pg_hba_val _ _ _ _ Hb) as (data' & Hsrc & Hdst).
    assert (data' = data) as ->.
    { subst s1'. rewrite exec_print_files, Hf1, Hdata in Hsrc. congruence. }
    assert (H2 : files s2 !! backup_of (pg_hba_of h d) = Some data).
    { subst s2. rewrite (write_trust_only h (pg_hba_of h d) sb); [exact Hdst |].
      apply backup_of_neq. }
    destruct w.
    + change (files (exec (main_step3 h) s2) !! backup_of (pg_hba_of h d) = Some data).
      rewrite (main_step3_only_pg_hba h s2); [exact H2 |].
      intros d' C. symmetry in C. now apply pg_hba_not_backup in C.
    + exact H2.
  - left. cbn.
    pose proof (backup_pg_hba_only h (pg_hba_of h d) s1' (pg_hba_of h d)) as K.
    fold sb in K. rewrite K.
    + subst s1'. now rewrite exec_print_files, Hf1.
    + intros C. symmetry in C. now apply backup_of_neq in C.
Qed.

Lemma original_policy_never_lost_witness :
  files (exec (main (disk_full_from 6)) (init linux_files)) !! linux_pg_hba
    = Some "# TYPE  DATA" /\
  files (exec (main (disk_full_from 6)) (init linux_files)) !! backup_of linux_pg_hba
    = Some original_policy.
Proof.
  split; [vm_compute; reflexivity |].
  destruct (original_policy_never_lost (disk_full_from 6) (init linux_files)
              "/var/lib/postgresql/data" original_policy eq_refl eq_refl) as [C | C].
  - exfalso. revert C. vm_compute. discriminate.
  - exact C.
Defined.

(** ** Backup and restore *)

(** A successful [reset_postgres_auth] followed, with the files untouched
    in between, by a successful [restore_postgres_auth] leaves every file
    but the backup as it was before the reset. *)
Lemma reset_restore_files h s s1 s1' s2 d :
  data_dir_is h (Some d) s ->
  reset_postgres_auth h s = (Val true, s1) ->
  files s1' = files s1 ->
  restore_postgres_auth h s1' = (Val true, s2) ->
  forall p, p <> backup_of (pg_hba_of h d) -> files s2 !! p = files s !! p.
Proof.
  intros Hd Hr Hf Hb p Hp.
  destruct (reset_postgres_auth_val _ _ _ _ (data_dir_run _ _ _ Hd) Hr)
    as (_ & data & Hsrc & Hdst).
  destruct (reset_postgres_auth_two h (Some d) s Hd) as [Hd1 Hk1].
  rewrite (exec_of_run _ _ _ _ Hr) in Hd1, Hk1.
  pose proof (data_dir_same_files _ _ _ _ Hf Hd1) as Hd1'.
  destruct (restore_postgres_auth_val _ _ _ _ (data_dir_run _ _ _ Hd1') Hb)
    as (data' & Hsrc' & Hdst').
  destruct (restore_postgres_auth_two h (Some d) s1' Hd1') as [_ Hk2].
  rewrite (exec_of_run _ _ _ _ Hb) in Hk2.
  destruct (decide (p = pg_hba_of h d)) as [-> | Hne].
  - rewrite Hdst', Hsrc. rewrite Hf, Hdst in Hsrc'. congruence.
  - rewrite Hk2, Hf, Hk1; [reflexivity | |];
      intros d' E; inversion E; subst d'; now split.
Qed.

(** X4.  Backup and restore are a round trip: when
    [reset_postgres_auth] has returned [True] and [restore_postgres_auth]
    then returns [True], the policy file holds again what it held before
    the reset, and so does every other file but the backup. *)
Theorem reset_restore_round_trip h s s1 s2 d :
  fst (find_postgres_data_dir h s) = Val (Some d) ->
  reset_postgres_auth h s = (Val true, s1) ->
  restore_postgres_auth h s1 = (Val true, s2) ->
  files s2 !! pg_hba_of h d = files s !! pg_hba_of h d /\
  (forall p, p <> backup_of (pg_hba_of h d) -> files s2 !! p = files s !! p).
Proof.
  intros Hd Hr Hb.
  assert (K : forall p, p <> backup_of (pg_hba_of h d) -> files s2 !! p = files s !! p)
    by exact (reset_restore_files h s s1 s1 s2 d (data_dir_of_fst _ _ _ Hd) Hr eq_refl Hb).
  split; [| exact K].
  apply K. intros C. symmetry in C. now apply backup_of_neq in C.
Qed.

Lemma reset_restore_round_trip_witness :
  files (exec (restore_postgres_auth linux_host)
           (exec (reset_postgres_auth linux_host) (init linux_files)))
    !! pg_hba_of linux_host "/var/lib/postgresql/data"
  = files (init linux_files) !! pg_hba_of linux_host "/var/lib/postgresql/data".
Proof.
  apply (reset_restore_round_trip linux_host (init linux_files)
           (exec (reset_postgres_auth linux_host) (init linux_files))).
  - reflexivity.
  - run_step.
  - run_step.
Defined.

(** X5.  The rollback of step 4 brings the original back.  In every run
    in which the credential change fails and the restore that follows
    succeeds, [main] returns [False] and every file but the backup, the
    policy file among them, holds what it held when the script was
    started. *)
Theorem rollback_restores_original h s0 s s1 b s2 s3 d :
  fst (find_postgres_data_dir h s0) = Val (Some d) ->
  enters h s0 ChangingCredential s ->
  reset_postgres_password h s = (Val false, s1) ->
  stop_postgres h
    (exec (print "❌ Failed to reset password. Restoring original config...") s1)
    = (Val b, s2) ->
  restore_postgres_auth h s2 = (Val true, s3) ->
  main h s0 = (Val false, exec (start_postgres h) s3) /\
  (forall p, p <> backup_of (pg_hba_of h d) ->
             files (exec (start_postgres h) s3) !! p = files s0 !! p).
Proof.
  intros Hd He Hp Hs Hr. split.
  - destruct (total_run _ s3 (total_start_postgres h)) as [b' Hs'].
    rewrite (main_enters _ _ _ _ He). unfold continue, main_step4.
    rewrite (bind_val _ _ _ _ _ Hp). cbn [negb].
    unfold bind at 1. cbn [print emit].
    change {| files := files s1; open_conns := open_conns s1; clock := clock s1;
              log := log s1 ++ [EvPrint "❌ Failed to reset password. Restoring original config..."] |}
      with (exec (print "❌ Failed to reset password. Restoring original config...") s1).
    rewrite (bind_val _ _ _ _ _ Hs), (bind_val _ _ _ _ _ Hr), (bind_val _ _ _ _ _ Hs').
    reflexivity.
  - intros p Hne. rewrite (start_postgres_same_files h s3).
    inversion He as [| | sa sst Ha Hst | | | |]; subst.
    inversion Ha as [| sr sa' Hrel Hra | | | | |]; subst.
    assert (Hfr : files sr = files s0) by exact (enters_relaxing_files _ _ _ Hrel).
    rewrite <- Hfr.
    apply (reset_restore_files h sr sa s2 s3 d); [| exact Hra | | exact Hr | exact Hne].
    + apply (data_dir_same_files h _ s0); [exact Hfr | now apply data_dir_of_fst].
    + rewrite <- (exec_of_run _ _ _ _ Hs), (stop_postgres_same_files h _).
      rewrite exec_print_files.
      rewrite <- (exec_of_run _ _ _ _ Hp), (reset_postgres_password_same_files h _).
      change (files sst = files sa).
      rewrite <- (exec_of_run _ _ _ _ Hst). apply start_postgres_same_files.
Qed.

Lemma rollback_restores_original_witness :
  fst (main (database_fails is_alter_user) (init linux_files)) = Val false /\
  files (exec (main (database_fails is_alter_user)) (init linux_files)) !! linux_pg_hba
    = Some original_policy.
Proof.
  set (h := database_fails is_alter_user).
  set (s := exec (print "⏳ Waiting for PostgreSQL to start...";;; sleep 3)
              (exec (start_postgres h)
                 (exec (reset_postgres_auth h) (exec (main_step1 h) (init linux_files))))).
  set (s1 := exec (reset_postgres_password h) s).
  set (s2 := exec (stop_postgres h)
               (exec (print "❌ Failed to reset password. Restoring original config...") s1)).
  destruct (rollback_restores_original h (init linux_files) s s1 true s2
              (exec (restore_postgres_auth h) s2) "/var/lib/postgresql/data")
    as [Hm Hf].
  - reflexivity.
  - subst s. run_to_phase.
  - run_step.
  - run_step.
  - run_step.
  - unfold exec at 1. rewrite Hm. split; [reflexivity |].
    cbn [snd]. rewrite Hf; [reflexivity | discriminate].
Defined.

(** ** Probing for the service *)

Lemma probe_services_run h services s :
  exec (probe_services h services) s
  = {| files := files s; open_conns := open_conns s;
       clock := clock s + probes_made (sc_query_ok h) (clock s) services;
       log := log s ++ map (fun c => EvRun (sc_query c))
                         (firstn (probes_made (sc_query_ok h) (clock s) services)
                            services) |}.
Proof.
  revert s. induction services as [|service rest IH]; intros s.
  - unfold exec. simpl. rewrite Nat.add_0_r, app_nil_r. now destruct s.
  - unfold exec. cbn [probe_services probes_made].
    destruct (run_command_val h ("sc query " +:+ dq +:+ service +:+ dq) s)
      as (out & err & E).
    rewrite (bind_val _ _ _ _ _ E).
    fold (sc_query_ok h (clock s) service). fold (sc_query service).
    destruct (sc_query_ok h (clock s) service).
    + cbn [ret snd firstn map]. now rewrite Nat.add_1_r.
    + fold (exec (probe_services h rest)
              {| files := files s; open_conns := open_conns s; clock := S (clock s);
                 log := log s ++ [EvRun (sc_query service)] |}).
      rewrite IH. cbn [files open_conns clock log firstn map].
      rewrite <- app_assoc. cbn [app]. now rewrite Nat.add_succ_r.
Qed.

Lemma probes_made_bounds ok t candidates :
  probes_made ok t candidates <= length candidates /\
  (candidates <> [] -> 1 <= probes_made ok t candidates).
Proof.
  revert t. induction candidates as [|c rest IH]; intros t; simpl.
  - split; [lia | congruence].
  - destruct (ok t c); [split; intros; lia |].
    destruct (IH (S t)) as [H _]. split; intros; lia.
Qed.

Lemma first_probed_cons ok t c rest :
  first_probed ok t (c :: rest)
  = if ok t c then Some c else first_probed ok (S t) rest.
Proof. unfold first_probed. cbn [length seq combine List.find]. now destruct (ok t c). Qed.

Lemma first_probed_position ok t candidates :
  match first_probed ok t candidates with
  | Some c =>
      nth_error candidates (probes_made ok t candidates - 1) = Some c /\
      ok (t + (probes_made ok t candidates - 1)) c = true
  | None =>
      probes_made ok t candidates = length candidates /\
      forall i c, nth_error candidates i = Some c -> ok (t + i) c = false
  end.
Proof.
  revert t. induction candidates as [|c rest IH]; intros t.
  - cbn. split; [reflexivity |]. intros [|i] c; discriminate.
  - rewrite first_probed_cons. cbn [probes_made].
    destruct (ok t c) eqn:Hok.
    + cbn. now rewrite Nat.add_0_r.
    + specialize (IH (S t)).
      pose proof (probes_made_bounds ok (S t) rest) as [_ Hpos].
      destruct (first_probed ok (S t) rest) as [c'|].
      * destruct rest as [|c2 rest']; [discriminate (proj1 IH) |].
        specialize (Hpos ltac:(discriminate)).
        destruct IH as [Hn Ht].
        replace (S (probes_made ok (S t) (c2 :: rest')) - 1)
          with (S (probes_made ok (S t) (c2 :: rest') - 1)) by lia.
        split; [exact Hn |].
        now rewrite Nat.add_succ_r.
      * destruct IH as [Hn Hall]. split; [cbn [length]; now rewrite Hn |].
        intros [|i] x Hx.
        -- cbn in Hx. inversion Hx; subst. now rewrite Nat.add_0_r.
        -- rewrite Nat.add_succ_r. now apply (Hall i x).
Qed.

(** X6.  On Windows the service locator probes the candidate names in
    order and stops at the first that answers: with n the number of probes
    it makes, the trace gains exactly the [sc query] commands of the first
    n candidates, 1 <= n <= 4, the service returned is the n-th candidate and
    its probe succeeded; [None] is returned only after all four probes
    failed.  The lookup never raises and touches neither a file nor a
    connection. *)
Theorem windows_probe_stops_at_first_match h s :
  system h = "windows" ->
  let n := probes_made (sc_query_ok h) (clock s) windows_services in
  let s' := exec (find_postgres_service h) s in
  1 <= n <= 4 /\
  clock s' = clock s + n /\
  log s' = log s ++ map (fun c => EvRun (sc_query c)) (firstn n windows_services) /\
  files s' = files s /\
  open_conns s' = open_conns s /\
  (forall service,
      fst (find_postgres_service h s) = Val (Some service) ->
      nth_error windows_services (n - 1) = Some service /\
      sc_query_ok h (clock s + (n - 1)) service = true) /\
  (fst (find_postgres_service h s) = Val None ->
   n = 4 /\
   forall i c, nth_error windows_services i = Some c ->
               sc_query_ok h (clock s + i) c = false).
Proof.
  intros Hw n s'.
  assert (Hf : find_postgres_service h = probe_services h windows_services).
  { unfold find_postgres_service. now rewrite Hw. }
  subst s'. rewrite Hf, probe_services_run, probe_services_first. fold n.
  pose proof (probes_made_bounds (sc_query_ok h) (clock s) windows_services) as [Hle Hpos].
  specialize (Hpos ltac:(discriminate)). fold n in Hle, Hpos. cbn [length windows_services] in Hle.
  pose proof (first_probed_position (sc_query_ok h) (clock s) windows_services) as Hp.
  fold n in Hp.
  split; [lia |]. do 4 (split; [reflexivity |]). split.
  - intros service E. cbn [fst] in E.
    assert (E' : first_probed (sc_query_ok h) (clock s) windows_services = Some service)
      by congruence.
    rewrite E' in Hp. exact Hp.
  - intros E. cbn [fst] in E.
    assert (E' : first_probed (sc_query_ok h) (clock s) windows_services = None)
      by congruence.
    rewrite E' in Hp. destruct Hp as [Hn Hall]. split; [exact Hn | exact Hall].
Qed.

Lemma windows_probe_stops_at_first_match_witness :
  clock (exec (find_postgres_service windows_host) (init ∅)) = 3 /\
  log (exec (find_postgres_service windows_host) (init ∅))
    = [EvRun (sc_query "postgresql-x64-14"); EvRun (sc_query "postgresql-x64-15");
       EvRun (sc_query "postgresql-x64-16")].
Proof.
  destruct (windows_probe_stops_at_first_match windows_host (init ∅) eq_refl)
    as (_ & Hc & Hl & _).
  split; [rewrite Hc | rewrite Hl]; reflexivity.
Defined.

(** ** Stopping and starting *)

Lemma find_postgres_service_windows h s :
  system h = "windows" ->
  find_postgres_service h s
  = (Val (first_probed (sc_query_ok h) (clock s) windows_services),
     {| files := files s; open_conns := open_conns s;
        clock := clock s + probes_made (sc_query_ok h) (clock s) windows_services;
        log := log s ++ map (fun c => EvRun (sc_query c))
                          (firstn (probes_made (sc_query_ok h) (clock s) windows_services)
                             windows_services) |}).
Proof.
  intros Hw.
  assert (Hf : find_postgres_service h = probe_services h windows_services).
  { unfold find_postgres_service. now rewrite Hw. }
  rewrite Hf, (run_eq (probe_services h windows_services) s).
  now rewrite probe_services_first, probe_services_run.
Qed.

Lemma announce_and_run {A : Type} h line command
    (k : bool * string * string -> M A) s :
  exists out err,
    (print line;;; r <- run_command h command;; k r) s
    = k (command_ok h (clock s) command, out, err)
        {| files := files s; open_conns := open_conns s; clock := S (clock s);
           log := (log s ++ [EvPrint line]) ++ [EvRun command] |}.
Proof.
  change ((print line;;; r <- run_command h command;; k r) s)
    with ((r <- run_command h command;; k r) (exec (print line) s)).
  destruct (run_command_val h command (exec (print line) s)) as (out & err & E).
  exists out, err. now rewrite (bind_val _ _ _ _ _ E).
Qed.

(** X7.  What [stop_postgres] and [start_postgres] answer.  On Windows
    the flag is [True] exactly when one of the candidate services answered
    its probe and the [net stop] (or [net start]) of that very service,
    run right after the probes, exits with status 0; when no service
    answered, no [net] command is run.  On Linux and macOS the flag is
    the success of the one [sudo systemctl] command on postgresql. *)
Theorem service_control_flags h s :
  (system h = "windows" ->
   let n := probes_made (sc_query_ok h) (clock s) windows_services in
   match first_probed (sc_query_ok h) (clock s) windows_services with
   | Some service =>
       fst (stop_postgres h s)
         = Val (command_ok h (clock s + n) ("net stop " +:+ dq +:+ service +:+ dq)) /\
       fst (start_postgres h s)
         = Val (command_ok h (clock s + n) ("net start " +:+ dq +:+ service +:+ dq))
   | None =>
       fst (stop_postgres h s) = Val false /\
       fst (start_postgres h s) = Val false /\
       clock (exec (stop_postgres h) s) = clock s + 4 /\
       clock (exec (start_postgres h) s) = clock s + 4
   end) /\
  (system h = "linux" \/ system h = "darwin" ->
   fst (stop_postgres h s)
     = Val (command_ok h (clock s) "sudo systemctl stop postgresql") /\
   fst (start_postgres h s)
     = Val (command_ok h (clock s) "sudo systemctl start postgresql") /\
   clock (exec (stop_postgres h) s) = S (clock s) /\
   clock (exec (start_postgres h) s) = S (clock s)).
Proof.
  split.
  - intros Hw n.
    pose proof (first_probed_position (sc_query_ok h) (clock s) windows_services) as Hp.
    unfold exec, stop_postgres, start_postgres.
    rewrite !(bind_val _ _ _ _ _ (find_postgres_service_windows h s Hw)).
    rewrite Hw. change (String.eqb "windows" "windows") with true. cbv iota.
    fold n in Hp |- *.
    destruct (first_probed (sc_query_ok h) (clock s) windows_services) as [service|].
    + split.
      * match goal with
        | |- context [bind (print ?l) (fun _ => bind (run_command h ?c) ?k) ?st] =>
            destruct (announce_and_run h l c k st) as (out & err & E); rewrite E
        end.
        cbn [clock]. now destruct (command_ok h (clock s + n) _).
      * match goal with
        | |- context [bind (print ?l) (fun _ => bind (run_command h ?c) ?k) ?st] =>
            destruct (announce_and_run h l c k st) as (out & err & E); rewrite E
        end.
        cbn [clock]. now destruct (command_ok h (clock s + n) _).
    + destruct Hp as [Hn _]. cbn [length windows_services] in Hn.
      unfold bind, print, emit, ret. cbn [fst snd clock]. rewrite Hn.
      now repeat split.
  - intros Hl.
    assert (Hf : find_postgres_service h s = (Val (Some "postgresql"), s)).
    { unfold find_postgres_service.
      destruct Hl as [Hl | Hl]; rewrite Hl; reflexivity. }
    assert (Hnw : String.eqb (system h) "windows" = false)
      by (destruct Hl as [Hl | Hl]; rewrite Hl; reflexivity).
    unfold exec, stop_postgres, start_postgres.
    rewrite !(bind_val _ _ _ _ _ Hf), Hnw.
    repeat split;
      match goal with
      | |- context [bind (print ?l) (fun _ => bind (run_command h ?c) ?k) ?st] =>
          destruct (announce_and_run h l c k st) as (out & err & E); rewrite E
      end;
      now destruct (command_ok h (clock s) _).
Qed.

Lemma service_control_flags_witness :
  fst (stop_postgres windows_host (init ∅)) = Val false /\
  fst (start_postgres (commands_fail_from 7) (init ∅)) = Val true.
Proof.
  split.
  - pose proof (proj1 (service_control_flags windows_host (init ∅)) eq_refl) as H.
    cbv zeta in H.
    change (first_probed (sc_query_ok windows_host) (clock (init ∅)) windows_services)
      with (Some "postgresql-x64-16") in H.
    cbv iota beta in H. rewrite (proj1 H). vm_compute. reflexivity.
  - rewrite (proj1 (proj2 (proj2 (service_control_flags (commands_fail_from 7) (init ∅))
                             (or_introl eq_refl)))).
    vm_compute. reflexivity.
Defined.

(** X8.  On a platform that is neither Windows, Linux nor macOS the
    script does nothing: [main] returns [False] and the process exits with
    status 1 without having run a command, opened a file or called the
    database, whatever files and connections there are. *)
Theorem unknown_platform_nothing_done h s0 :
  system h <> "windows" -> system h <> "linux" -> system h <> "darwin" ->
  main h s0 =
    (Val false,
     {| files := files s0; open_conns := open_conns s0; clock := clock s0;
        log := log s0 ++
          [ EvPrint "🚀 PostgreSQL Reset Script";
            EvPrint "==================================================";
            EvPrint "❌ Could not find PostgreSQL service";
            EvPrint "⚠️  Continuing anyway...";
            EvPrint "❌ Could not find PostgreSQL data directory";
            EvPrint "❌ Failed to reset authentication. Exiting." ] |}) /\
  fst (script h s0) = 1%Z.
Proof.
  intros Hw Hl Hd. apply String.eqb_neq in Hw, Hl, Hd.
  assert (Hm : main h s0 =
    (Val false,
     {| files := files s0; open_conns := open_conns s0; clock := clock s0;
        log := log s0 ++
          [ EvPrint "🚀 PostgreSQL Reset Script";
            EvPrint "==================================================";
            EvPrint "❌ Could not find PostgreSQL service";
            EvPrint "⚠️  Continuing anyway...";
            EvPrint "❌ Could not find PostgreSQL data directory";
            EvPrint "❌ Failed to reset authentication. Exiting." ] |})).
  { unfold main, main_step1, banner, main_step2, stop_postgres, reset_postgres_auth,
      find_postgres_service, find_postgres_data_dir, common_paths.
    rewrite Hw, Hl, Hd. cbn. repeat rewrite <- app_assoc. reflexivity. }
  split; [exact Hm |].
  unfold script. rewrite Hm. now destruct (has_psycopg2 h).
Qed.

Lemma unknown_platform_nothing_done_witness :
  fst (main freebsd_host (init linux_files)) = Val false /\
  clock (exec (main freebsd_host) (init linux_files)) = 0.
Proof.
  destruct (unknown_platform_nothing_done freebsd_host (init linux_files))
    as [Hm _]; try discriminate.
  unfold exec. rewrite Hm. split; reflexivity.
Defined.

(** X9.  Nothing to reset, nothing to restore.  When there is no data
    directory, or no pg_hba.conf in it, [reset_postgres_auth] returns
    [False] without opening or creating any file: no backup appears.  When
    there is no data directory, or no backup in it, [restore_postgres_auth]
    returns [False] and leaves the state exactly as it was. *)
Theorem nothing_to_reset_or_restore h s :
  ((forall d, fst (find_postgres_data_dir h s) = Val (Some d) ->
              path_exists h s (pg_hba_of h d) = false) ->
   fst (reset_postgres_auth h s) = Val false /\
   files (exec (reset_postgres_auth h) s) = files s /\
   clock (exec (reset_postgres_auth h) s) = clock s) /\
  ((forall d, fst (find_postgres_data_dir h s) = Val (Some d) ->
              path_exists h s (backup_of (pg_hba_of h d)) = false) ->
   restore_postgres_auth h s = (Val false, s)).
Proof.
  unfold exec, reset_postgres_auth, restore_postgres_auth, find_postgres_data_dir.
  rewrite probe_paths_first. cbn [fst].
  split; intros H; rewrite !(bind_val _ _ _ _ _ (probe_paths_first h _ s));
    destruct (List.find (path_exists h s) (common_paths h)) as [d|]; cbv zeta.
  - pose proof (eq_refl : os_path_exists h (pg_hba_of h d) s
                          = (Val (path_exists h s (pg_hba_of h d)), s)) as Ex.
    rewrite !(bind_val _ _ _ _ _ Ex), (H d eq_refl). now cbn.
  - now cbn.
  - pose proof (eq_refl : os_path_exists h (backup_of (pg_hba_of h d)) s
                          = (Val (path_exists h s (backup_of (pg_hba_of h d))), s)) as Ex.
    now rewrite !(bind_val _ _ _ _ _ Ex), (H d eq_refl).
  - reflexivity.
Qed.

Lemma nothing_to_reset_or_restore_witness :
  files (exec (reset_postgres_auth linux_host) (init ∅)) = ∅ /\
  restore_postgres_auth linux_host (init linux_files) = (Val false, init linux_files).
Proof.
  split.
  - refine (proj1 (proj2 (proj1 (nothing_to_reset_or_restore linux_host (init ∅)) _))).
    intros d E. inversion E; subst. reflexivity.
  - apply (proj2 (nothing_to_reset_or_restore linux_host (init linux_files))).
    intros d E. inversion E; subst. reflexivity.
Defined.

(** ** Connections on the success path *)

Lemma reset_postgres_password_conns h s s' :
  reset_postgres_password h s = (Val true, s') ->
  open_conns s' = List.filter (fun c => negb (Nat.eqb c (clock s))) (open_conns s).
Proof.
  unfold reset_postgres_password, try_except, connect, fetchone, conn_close, db_call,
    bind, call, print, emit, ret, raise. simpl.
  repeat (match goal with
          | |- context [db_fault h ?t ?c] => destruct (db_fault h t c); simpl
          | |- context [no_row ?r] => destruct (no_row r); simpl
          end; try discriminate);
    intros E; inversion E; subst; simpl; now rewrite Nat.eqb_refl.
Qed.

Lemma test_connection_conns h s s' :
  test_connection h s = (Val true, s') ->
  open_conns s' = List.filter (fun c => negb (Nat.eqb c (clock s))) (open_conns s).
Proof.
  unfold test_connection, try_except, connect, fetchone, first_column, conn_close,
    db_call, bind, call, print, emit, ret, raise. simpl.
  repeat (match goal with
          | |- context [db_fault h ?t ?c] => destruct (db_fault h t c); simpl
          | |- context [db_row h ?t] => destruct (db_row h t) as [[|? ?]|]; simpl
          end; try discriminate);
    intros E; inversion E; subst; simpl; now rewrite Nat.eqb_refl.
Qed.

Lemma same_conns_refl s : same_conns s s.
Proof. reflexivity. Qed.

Lemma same_conns_trans s1 s2 s3 : same_conns s1 s2 -> same_conns s2 s3 -> same_conns s1 s3.
Proof. unfold same_conns. congruence. Qed.

Lemma same_conns_log s l c :
  same_conns s {| files := files s; open_conns := open_conns s; clock := c; log := l |}.
Proof. reflexivity. Qed.

Lemma keeps_open_same_conns h path mode : keeps same_conns (open_file h path mode).
Proof.
  intros s. unfold same_conns, exec, open_file, bind, call, raise. simpl.
  destruct (open_fault h (clock s) path mode); simpl; [reflexivity |].
  destruct mode; simpl; [| reflexivity].
  now destruct (files s !! path).
Qed.

Lemma keeps_write_same_conns h path data : keeps same_conns (file_write h path data).
Proof.
  intros s. unfold same_conns, exec, file_write, bind, call. simpl.
  now destruct (write_fault h (clock s) path) as [[n msg]|].
Qed.

Ltac same_conns_steps :=
  cbv zeta;
  repeat keeps_step same_conns_refl same_conns_trans same_conns_log same_conns_log
    ltac:(idtac; first [apply keeps_open_same_conns | apply keeps_write_same_conns]).

Lemma main_step1_same_conns h : keeps same_conns (main_step1 h).
Proof. unfold main_step1, banner. same_conns_steps. Qed.

Lemma reset_postgres_auth_same_conns h : keeps same_conns (reset_postgres_auth h).
Proof.
  unfold reset_postgres_auth, backup_pg_hba, write_trust, copy_text, write_text.
  same_conns_steps.
Qed.

Lemma create_secure_pg_hba_same_conns h : keeps same_conns (create_secure_pg_hba h).
Proof. unfold create_secure_pg_hba, write_text. same_conns_steps. Qed.

Lemma stop_postgres_same_conns h : keeps same_conns (stop_postgres h).
Proof. same_conns_steps. Qed.

Lemma start_postgres_same_conns h : keeps same_conns (start_postgres h).
Proof. same_conns_steps. Qed.

Lemma enters_no_conns h s0 p s :
  open_conns s0 = [] -> enters h s0 p s -> open_conns s = [].
Proof.
  intros H0.
  induction 1 as [s H1 | s s' _ IH H2 | s s' _ IH H2 | s s' _ IH H2
                 | s b s' _ IH H2 | s b s' _ IH H2 | s b s' _ IH H2].
  - rewrite <- (exec_of_run _ _ _ _ H1), (main_step1_same_conns h s0). exact H0.
  - rewrite <- (exec_of_run _ _ _ _ H2), (reset_postgres_auth_same_conns h s). exact IH.
  - cbn. rewrite <- (exec_of_run _ _ _ _ H2), (start_postgres_same_conns h s). exact IH.
  - rewrite (reset_postgres_password_conns _ _ _ H2), IH. reflexivity.
  - rewrite <- (exec_of_run _ _ _ _ H2), (stop_postgres_same_conns h s). exact IH.
  - rewrite <- (exec_of_run _ _ _ _ H2), (create_secure_pg_hba_same_conns h s). exact IH.
  - cbn. rewrite <- (exec_of_run _ _ _ _ H2), (start_postgres_same_conns h s). exact IH.
Qed.

(** X10.  A successful step closes its connection, and a successful run
    leaves none open.  When [reset_postgres_password] or [test_connection]
    returns [True], the connection it opened is closed again and no other
    connection was opened or closed; a run of [main] that starts without
    open connections and returns [True] ends without open connections. *)
Theorem success_closes_connections h :
  (forall s s',
      reset_postgres_password h s = (Val true, s') ->
      open_conns s' = List.filter (fun c => negb (Nat.eqb c (clock s))) (open_conns s)) /\
  (forall s s',
      test_connection h s = (Val true, s') ->
      open_conns s' = List.filter (fun c => negb (Nat.eqb c (clock s))) (open_conns s)) /\
  (forall s0 sf,
      open_conns s0 = [] ->
      main h s0 = (Val true, sf) ->
      open_conns sf = []).
Proof.
  split; [exact (reset_postgres_password_conns h) |].
  split; [exact (test_connection_conns h) |].
  intros s0 sf H0 Hm.
  destruct (main_true_verified _ _ _ Hm) as (s & s' & He & Ht).
  rewrite (main_enters _ _ _ _ He) in Hm. unfold continue, main_step6 in Hm.
  rewrite (bind_val _ _ _ _ _ Ht) in Hm. cbn in Hm. inversion Hm; subst; clear Hm.
  cbn. rewrite (test_connection_conns _ _ _ Ht), (enters_no_conns _ _ _ _ H0 He).
  reflexivity.
Qed.

Lemma success_closes_connections_witness :
  open_conns (exec (main linux_host) (init linux_files)) = [].
Proof.
  apply (proj2 (proj2 (success_closes_connections linux_host)) (init linux_files)).
  - reflexivity.
  - run_step.
Defined.

(** ** The test database *)

(** X11.  The test database is created only when it is missing: in every
    credential change that returns [True], [CREATE DATABASE testdb] is
    among the calls made exactly when the lookup in pg_database fetched no
    row; when the database is there already it is left alone. *)
Theorem testdb_created_when_absent h s s' :
  reset_postgres_password h s = (Val true, s') ->
  exists l,
    log s' = log s ++ l /\
    (In (EvDb (Execute "CREATE DATABASE testdb;")) l <->
     no_row (db_row h (5 + clock s)) = true).
Proof.
  unfold reset_postgres_password, try_except, connect, fetchone, conn_close, db_call,
    bind, call, print, emit, ret, raise. simpl.
  repeat (match goal with
          | |- context [db_fault h ?t ?c] => destruct (db_fault h t c); simpl
          end; try discriminate).
  - destruct (no_row (db_row h (S (S (S (S (S (clock s)))))))) eqn:Hrow; simpl.
    + destruct (db_fault h _ _); simpl; [discriminate |].
      destruct (db_fault h _ _); simpl; [discriminate |].
      destruct (db_fault h _ _); simpl; [discriminate |].
      intros E; inversion E; subst; clear E. simpl.
      repeat rewrite <- app_assoc. eexists. split; [reflexivity |].
      simpl. split; [reflexivity |]. intros _. tauto.
    + destruct (db_fault h _ _); simpl; [discriminate |].
      destruct (db_fault h _ _); simpl; [discriminate |].
      intros E; inversion E; subst; clear E. simpl.
      repeat rewrite <- app_assoc. eexists. split; [reflexivity |].
      simpl. split; [| discriminate].
      intros H. repeat (destruct H as [H|H]; [discriminate H |]). destruct H.
Qed.

Lemma testdb_created_when_absent_witness :
  exists l,
    log (exec (reset_postgres_password linux_host) (init ∅)) = [] ++ l /\
    (In (EvDb (Execute "CREATE DATABASE testdb;")) l <->
     no_row (db_row linux_host 5) = true).
Proof.
  apply (testdb_created_when_absent linux_host (init ∅)). run_step.
Defined.

(** X12.  A failure to create the test database fails the whole reset,
    although the password was changed.  In every run in which the
    credential change gets as far as the lookup, no row is fetched and
    [CREATE DATABASE] raises, [reset_postgres_password] returns [False]
    after [ALTER USER] was executed, and [main] returns [False]. *)
Theorem testdb_failure_fails_reset h s0 s msg :
  enters h s0 ChangingCredential s ->
  (forall i c, nth_error password_calls i = Some c -> db_fault h (i + clock s) c = None) ->
  no_row (db_row h (5 + clock s)) = true ->
  db_fault h (6 + clock s) (Execute "CREATE DATABASE testdb;") = Some msg ->
  fst (reset_postgres_password h s) = Val false /\
  In (EvDb (Execute "ALTER USER postgres PASSWORD '1';"))
     (log (exec (reset_postgres_password h) s)) /\
  fst (main h s0) = Val false.
Proof.
  intros He Hcalls Hrow Hfail.
  assert (Hrun : exists s', reset_postgres_password h s = (Val false, s') /\
                            In (EvDb (Execute "ALTER USER postgres PASSWORD '1';")) (log s')).
  { pose proof (Hcalls 0 _ eq_refl) as H0. pose proof (Hcalls 1 _ eq_refl) as H1.
    pose proof (Hcalls 2 _ eq_refl) as H2. pose proof (Hcalls 3 _ eq_refl) as H3.
    pose proof (Hcalls 4 _ eq_refl) as H4. pose proof (Hcalls 5 _ eq_refl) as H5.
    cbn [Nat.add] in H0, H1, H2, H3, H4, H5, Hrow, Hfail.
    unfold reset_postgres_password, try_except, connect, fetchone, conn_close, db_call,
      bind, call, print, emit, ret, raise. simpl.
    rewrite H0. simpl. rewrite H1. simpl. rewrite H2. simpl. rewrite H3. simpl.
    rewrite H4. simpl. rewrite H5. simpl. rewrite Hrow. simpl. rewrite Hfail. simpl.
    eexists. split; [reflexivity |]. simpl.
    rewrite !in_app_iff. simpl. tauto. }
  destruct Hrun as (s' & Hr & Hin).
  unfold exec. rewrite Hr. split; [reflexivity | split; [exact Hin |]].
  rewrite (main_enters _ _ _ _ He). unfold continue, main_step4.
  rewrite (bind_val _ _ _ _ _ Hr). cbn [negb].
  destruct (total_run (print "❌ Failed to reset password. Restoring original config...";;;
                       stop_postgres h;;; restore_postgres_auth h;;;
                       start_postgres h;;; ret false) s') as [b Hb].
  { repeat total_step. }
  rewrite Hb. cbn [fst]. f_equal.
  apply bind_inv in Hb. destruct Hb as (? & ? & _ & Hb).
  apply bind_inv in Hb. destruct Hb as (? & ? & _ & Hb).
  apply bind_inv in Hb. destruct Hb as (? & ? & _ & Hb).
  apply bind_inv in Hb. destruct Hb as (? & ? & _ & Hb).
  unfold ret in Hb. congruence.
Qed.

Lemma testdb_failure_fails_reset_witness :
  fst (main testdb_refused (init linux_files)) = Val false.
Proof.
  set (h := testdb_refused).
  set (s := exec (print "⏳ Waiting for PostgreSQL to start...";;; sleep 3)
              (exec (start_postgres h)
                 (exec (reset_postgres_auth h) (exec (main_step1 h) (init linux_files))))).
  refine (proj2 (proj2 (testdb_failure_fails_reset h (init linux_files) s
                          "permission denied to create database" _ _ _ _))).
  - subst s. run_to_phase.
  - intros [|[|[|[|[|[|[|i]]]]]]] c E; cbn in E; inversion E; reflexivity.
  - reflexivity.
  - reflexivity.
Defined.

(** ** The exit status *)


(** ** Writes that fail *)

Lemma write_text_raise h path data s e s' :
  write_text h path data s = (Raise e, s') ->
  files s' !! path = files s !! path \/
  exists n, files s' !! path = Some (substring 0 n data).
Proof.
  unfold write_text, open_file, file_write, bind, call, raise. simpl.
  destruct (open_fault h (clock s) path ModeW); simpl.
  - intros E; inversion E; subst. now left.
  - destruct (write_fault h (S (clock s)) path) as [[n msg]|]; simpl;
      intros E; inversion E; subst. right. exists n. simpl. apply lookup_insert_eq.
Qed.

Lemma guarded_false (body : M unit) (ok : string) (failed : Exn -> string) s s' :
  try_except (body;;; print ok;;; ret true)
    (fun e => print (failed e);;; ret false) s = (Val false, s') ->
  exists e s1, body s = (Raise e, s1) /\ files s' = files s1.
Proof.
  unfold try_except, bind, print, emit, ret.
  destruct (body s) as [[[]|e] s1]; simpl; intros E; inversion E; subst; clear E.
  now exists e, s1.
Qed.

(** X14.  A policy write that fails can leave the file cut short.  When
    [create_secure_pg_hba] or [reset_postgres_auth] returns [False], the
    policy file either still holds what it held or holds the first n
    characters of the template being written, for some n: the file is
    truncated when it is opened, before the text is written. *)
Theorem failed_policy_write h s s' d :
  fst (find_postgres_data_dir h s) = Val (Some d) ->
  (create_secure_pg_hba h s = (Val false, s') ->
   files s' !! pg_hba_of h d = files s !! pg_hba_of h d \/
   exists n, files s' !! pg_hba_of h d = Some (substring 0 n secure_config)) /\
  (reset_postgres_auth h s = (Val false, s') ->
   files s' !! pg_hba_of h d = files s !! pg_hba_of h d \/
   exists n, files s' !! pg_hba_of h d = Some (substring 0 n trust_config)).
Proof.
  intros Hd. apply data_dir_of_fst, data_dir_run in Hd. split.
  - unfold create_secure_pg_hba. rewrite (bind_val _ _ _ _ _ Hd). cbv zeta.
    intros E. apply guarded_false in E. destruct E as (e & s1 & E & Hf).
    rewrite Hf. exact (write_text_raise _ _ _ _ _ _ E).
  - destruct (path_exists h s (pg_hba_of h d)) eqn:Hx.
    + rewrite (reset_postgres_auth_found _ _ _ Hd Hx).
      intros E. apply bind_inv in E. destruct E as (saved & sb & Hb & E).
      pose proof (backup_pg_hba_only h (pg_hba_of h d)
                    (exec (print ("🔄 Backing up and modifying " +:+ pg_hba_of h d)) s)
                    (pg_hba_of h d)
                    (fun C => backup_of_neq _ (eq_sym C))) as K.
      rewrite (exec_of_run _ _ _ _ Hb), exec_print_files in K.
      destruct saved; cbn [negb] in E.
      * unfold write_trust in E. apply guarded_false in E.
        destruct E as (e & s1 & E & Hf). rewrite Hf, <- K.
        exact (write_text_raise _ _ _ _ _ _ E).
      * unfold ret in E. inversion E; subst. now left.
    + unfold reset_postgres_auth. rewrite (bind_val _ _ _ _ _ Hd). cbv zeta.
      pose proof (eq_refl : os_path_exists h (pg_hba_of h d) s
                            = (Val (path_exists h s (pg_hba_of h d)), s)) as Ex.
      rewrite (bind_val _ _ _ _ _ Ex), Hx. cbn.
      intros E; inversion E; subst. now left.
Qed.

Lemma failed_policy_write_witness :
  files (exec (reset_postgres_auth (disk_full_from 5)) (init linux_files))
    !! pg_hba_of (disk_full_from 5) "/var/lib/postgresql/data"
  = Some (substring 0 12 trust_config).
Proof.
  destruct (proj2 (failed_policy_write (disk_full_from 5) (init linux_files)
                     (exec (reset_postgres_auth (disk_full_from 5)) (init linux_files))
                     "/var/lib/postgresql/data" eq_refl)) as [C | [n C]].
  - run_step.
  - vm_compute. reflexivity.
  - vm_compute. reflexivity.
Defined.

(** ** What a success means *)

Lemma reset_postgres_password_true h s s' :
  reset_postgres_password h s = (Val true, s') ->
  db_fault h (clock s) (Connect "localhost" "postgres" "postgres" None) = None /\
  db_fault h (3 + clock s) (Execute "ALTER USER postgres PASSWORD '1';") = None.
Proof.
  unfold reset_postgres_password, try_except, connect, fetchone, conn_close, db_call,
    bind, call, print, emit, ret, raise. simpl.
  destruct (db_fault h (clock s) _) eqn:E1; simpl; [discriminate |].
  destruct (db_fault h (S (clock s)) _) eqn:E2; simpl; [discriminate |].
  destruct (db_fault h (S (S (clock s))) _) eqn:E3; simpl; [discriminate |].
  destruct (db_fault h (S (S (S (clock s)))) _) eqn:E4; simpl; [discriminate |].
  intros _. now split.
Qed.

(** X15.  A run that succeeds went through every step.  When [main]
    returns [True], the trust policy was written and the backup made, the
    service was started, a connection without password was accepted and
    [ALTER USER] was executed on it, and the verification with the new
    password passed: no step was skipped on the way to the success
    message. *)
Theorem success_went_through_every_step h s0 sf :
  main h s0 = (Val true, sf) ->
  exists s1 s2 s3 s4 s5 s6,
    enters h s0 Relaxing s1 /\
    reset_postgres_auth h s1 = (Val true, s2) /\
    start_postgres h s2 = (Val true, s3) /\
    enters h s0 ChangingCredential s4 /\
    reset_postgres_password h s4 = (Val true, s5) /\
    db_fault h (clock s4) (Connect "localhost" "postgres" "postgres" None) = None /\
    db_fault h (3 + clock s4) (Execute "ALTER USER postgres PASSWORD '1';") = None /\
    enters h s0 Verifying s6 /\
    fst (test_connection h s6) = Val true.
Proof.
  intros Hm.
  destruct (main_true_verified _ _ _ Hm) as (s6 & s6' & He6 & Ht).
  inversion He6 as [| | | | | | s7 b7 s7' He7 H7]; subst.
  inversion He7 as [| | | | | s8 b8 s8' He8 H8 |]; subst.
  inversion He8 as [| | | | s9 b9 s9' He9 H9 | |]; subst.
  inversion He9 as [| | | s4 s5 He4 H4 | | |]; subst.
  inversion He4 as [| | s2 s3 He2 H3 | | | |]; subst.
  inversion He2 as [| s1 s2' He1 H2 | | | | |]; subst.
  destruct (reset_postgres_password_true _ _ _ H4) as [Hc Ha].
  eexists s1, _, s3, _, _, _.
  repeat split; try eassumption.
  now rewrite Ht.
Qed.

Lemma success_went_through_every_step_witness :
  exists s4 s5,
    enters linux_host (init linux_files) ChangingCredential s4 /\
    reset_postgres_password linux_host s4 = (Val true, s5).
Proof.
  destruct (success_went_through_every_step linux_host (init linux_files)
              (exec (main linux_host) (init linux_files)))
    as (s1 & s2 & s3 & s4 & s5 & s6 & _ & _ & _ & He & Hr & _).
  - run_step.
  - exists s4, s5. split; [exact He | exact Hr].
Defined.
